(** * cinema-bot: film lookup, link resolution, paging and search history

    A shallow embedding of [src/movie_searcher.py], [src/db.py] and
    [src/cinema_bot.py].  Python integers are [Z], strings are byte
    strings (UTF-8), lists are lists.  Coroutines become functions in a
    state-and-exception monad over a [World] holding the per-user FSM
    storage, the database, the scripted answers of the remote services
    and a chronological trace of effects. *)

From Stdlib Require Import ZArith Lia Ascii String Sorting.Sorted.
From stdpp Require Import base option list strings pretty.

Local Open Scope Z_scope.

(** ** Python built-ins used by the sources *)

Module Py.

(** [len(l)] *)
Definition len {A} (l : list A) : Z := Z.of_nat (length l).

(** [l[:k]]: a negative bound counts from the end of the list. *)
Definition slice_to {A} (l : list A) (k : Z) : list A :=
  if k <? 0 then take (Z.to_nat (len l + k)) l else take (Z.to_nat k) l.

(** [l[i:j]] for bounds that are not negative. *)
Definition slice {A} (l : list A) (i j : Z) : list A :=
  drop (Z.to_nat i) (take (Z.to_nat j) l).

(** [l[i]]; [None] stands for [IndexError]. *)
Definition index {A} (l : list A) (i : Z) : option A :=
  if i <? 0
  then (if len l + i <? 0 then None else l !! Z.to_nat (len l + i))
  else l !! Z.to_nat i.

(** Truth value of a string and of an integer. *)
Definition truthy_str (s : string) : bool :=
  match s with EmptyString => false | String _ _ => true end.

Definition truthy_int (n : Z) : bool := negb (n =? 0).

(** [f"{v}"] for a value that is a string or [None]. *)
Definition fmt (v : option string) : string :=
  match v with Some s => s | None => "None" end.

(** [f"{n}"] for an integer. *)
Definition fmt_int (n : Z) : string := pretty n.

(** The characters of a string: a byte of the form 10xxxxxx continues
    the character begun by the lead byte before it. *)
Definition is_continuation (a : ascii) : bool :=
  let n := N_of_ascii a in ((128 <=? n) && (n <? 192))%N.

Fixpoint chars_aux (s : string) : string * list string :=
  match s with
  | EmptyString => (EmptyString, [])
  | String a s' =>
      let '(pending, done) := chars_aux s' in
      if is_continuation a then (String a pending, done)
      else (EmptyString, String a pending :: done)
  end.

Definition chars (s : string) : list string := snd (chars_aux s).

(** [v.isnumeric()] and [int(v)] on strings of ASCII bytes, where
    [isnumeric] holds exactly of the non-empty strings of digits.  Other
    numerals, which [str.isnumeric] accepts too, are outside this model. *)
Definition is_digit (a : ascii) : bool :=
  let n := N_of_ascii a in ((48 <=? n) && (n <=? 57))%N.

Fixpoint all_digits (s : string) : bool :=
  match s with
  | EmptyString => true
  | String a s' => is_digit a && all_digits s'
  end.

Definition isnumeric (s : string) : bool := truthy_str s && all_digits s.

Fixpoint int_go (acc : Z) (s : string) : Z :=
  match s with
  | EmptyString => acc
  | String a s' => int_go (10 * acc + (Z.of_N (N_of_ascii a) - 48)) s'
  end.

Definition int (s : string) : Z := int_go 0 s.

End Py.

(** ** Film records

    A film is the dictionary the metadata provider returns; a key is
    either absent ([None]) or carries a value.  The error candidate is the
    dictionary whose only key is [error]. *)

Record Movie := mkMovie {
  error : option string;
  filmId : option Z;
  nameRu : option string;
  nameEn : option string;
  year : option string;
  rating : option string;
  description : option string;
  posterUrlPreview : option string;
  serial : option bool;
}.

Definition empty_movie : Movie :=
  mkMovie None None None None None None None None None.

Definition error_movie (msg : string) : Movie :=
  mkMovie (Some msg) None None None None None None None None.

(** ** src/db.py *)

Module Db.

(** A row of [search_history]; rows are kept in insertion order, which
    is the order of their [timestamp] defaults. *)
Record SearchHistory := mkSearch {
  user_id : Z;
  query : string;
  film_name : option string;
  film_year : option string;
}.

Record Database := mkDb {
  users : list Z;
  search_history : list SearchHistory;
}.

Definition empty : Database := mkDb [] [].

Definition add_search (session : Database) (telegram_id : Z) (query : string)
    (film_name film_year : option string) : Database :=
  let users' :=
    if bool_decide (telegram_id ∈ users session) then users session
    else users session ++ [telegram_id] in
  mkDb users'
       (search_history session ++ [mkSearch telegram_id query film_name film_year]).

(** [select(SearchHistory).where(user_id == telegram_id)
     .order_by(timestamp.desc())], then the optional [limit]; SQLite reads
    a negative limit as no limit. *)
Definition get_user_history (session : Database) (telegram_id : Z)
    (page_size : option Z) : list SearchHistory :=
  let stmt :=
    rev (filter (fun r => user_id r = telegram_id) (search_history session)) in
  match page_size with
  | Some n => if n <? 0 then stmt else take (Z.to_nat n) stmt
  | None => stmt
  end.

(** The grouping key of the statistics query. *)
Definition Key : Type := option string * option string.

Definition key_of (r : SearchHistory) : Key := (film_name r, film_year r).

(** [GROUP BY film_name, film_year] with [count(1)]: one group per key,
    in order of first appearance. *)
Fixpoint bump (k : Key) (groups : list (Key * nat)) : list (Key * nat) :=
  match groups with
  | [] => [(k, 1%nat)]
  | (k', c) :: rest =>
      if decide (k = k') then (k', S c) :: rest else (k', c) :: bump k rest
  end.

Definition group_by_count (rows : list SearchHistory) : list (Key * nat) :=
  fold_left (fun groups r => bump (key_of r) groups) rows [].

(** [ORDER BY count DESC] as a stable insertion sort.  The query leaves
    the order among equal counts to the engine; here they stay in order
    of first appearance, and no statement below depends on that choice. *)
Fixpoint insert_desc (g : Key * nat) (sorted : list (Key * nat)) : list (Key * nat) :=
  match sorted with
  | [] => [g]
  | h :: rest =>
      if (snd g <? snd h)%nat then h :: insert_desc g rest else g :: h :: rest
  end.

Definition order_by_count_desc (groups : list (Key * nat)) : list (Key * nat) :=
  foldr insert_desc [] groups.

Definition get_user_stats (session : Database) (telegram_id : Z)
    : list (Key * nat) :=
  let selected :=
    filter (fun r => user_id r = telegram_id ∧ film_name r ≠ None)
           (search_history session) in
  order_by_count_desc (group_by_count selected).

End Db.

(** ** Functions taken as given

    [fuzz.ratio] of fuzzywuzzy, [str.lower] and [str.strip] are library
    functions.  [caption_text] stands for the HTML caption that
    [get_film_caption] assembles from the film and its links (escaping,
    truncation of the description, one anchor per link); no statement
    below reads that text. *)

Class Extern := {
  fuzz_ratio : string -> string -> Z;
  str_lower : string -> string;
  str_strip : string -> string;
  caption_text : Movie -> list string -> string;
}.

(** ** The world the coroutines run in *)

Inductive Exn :=
| ClientError | TimeoutError | ValueError | TypeError
| RuntimeError | AttributeError | IndexError | OtherError.

Inductive Result (A : Type) :=
| Ok (a : A)
| Raise (e : Exn).
Arguments Ok {A} a.
Arguments Raise {A} e.

(** The JSON body of the metadata provider: a dictionary with or without
    a [films] list, or some value that is not a dictionary. *)
Inductive Json :=
| JDict (films : option (list Movie))
| JOther.

(** An [article.shortstory.line] block of the secondary source's page:
    its [data-id] attribute and the text of its [h2.name] heading. *)
Record Article := mkArticle {
  data_id : option string;
  h2_name : option string;
}.

(** What a response gives: its status, what [json()] returns or raises,
    and the articles found in what [text()] returns. *)
Record Response := mkResponse {
  status : Z;
  json : Result Json;
  text : Result (list Article);
}.

Inductive Outcome :=
| Refused (e : Exn)
| Answered (r : Response).

Record InlineKeyboardButton := mkButton {
  label : string;
  callback_data : string;
}.

Definition InlineKeyboardMarkup : Type := list (list InlineKeyboardButton).

(** The body of an outgoing message: fixed text, a page of history or of
    statistics (header [page + 1]/[total_pages], items numbered from
    [start_idx + 1]), or a film card. *)
Inductive Content :=
| PlainText (s : string)
| HistoryPage (page total_pages start_idx : Z) (page_items : list Db.SearchHistory)
| StatsPage (page total_pages start_idx : Z) (page_items : list (Db.Key * nat))
| FilmCard (caption : string) (poster : string).

Record Outgoing := mkOutgoing {
  edits : bool;
  content : Content;
  reply_markup : option InlineKeyboardMarkup;
}.

(** The effects a trace records: requests to the two remote services, the
    back-off sleep, error-level log lines, and messages to the user. *)
Inductive Event :=
| Get (url keyword : string)
| Post (url payload : string)
| Sleep (milliseconds : Z)
| Log (message : string)
| Send (m : Outgoing).

Inductive PaginationStates := history | stats | search.

(** The FSM storage of one user: the state and the keys of its data. *)
Record FSMData := mkFSM {
  state : option PaginationStates;
  page : option Z;
  query : option string;
  film_info : option (list Movie);
}.

Record World := mkWorld {
  fsm : FSMData;
  db : Db.Database;
  net : list Outcome;
  trace : list Event;
}.

Definition M (A : Type) : Type := World -> Result A * World.

Definition ret {A} (a : A) : M A := fun w => (Ok a, w).

Definition raise {A} (e : Exn) : M A := fun w => (Raise e, w).

Definition bind {A B} (m : M A) (k : A -> M B) : M B :=
  fun w =>
    match m w with
    | (Ok a, w') => k a w'
    | (Raise e, w') => (Raise e, w')
    end.

Definition try_except {A} (m : M A) (handler : Exn -> M A) : M A :=
  fun w =>
    match m w with
    | (Ok a, w') => (Ok a, w')
    | (Raise e, w') => handler e w'
    end.

Notation "'let*' x ':=' m 'in' k" := (bind m (fun x => k))
  (at level 10, x pattern, m at level 100, k at level 200).

(** The world a coroutine leaves behind, whether it returned or raised. *)
Definition after {A} (m : M A) (w : World) : World := snd (m w).

Definition emit (ev : Event) : M unit :=
  fun w => (Ok tt, mkWorld (fsm w) (db w) (net w) (trace w ++ [ev])).

(** A request takes the next scripted outcome; with none left the
    connection fails. *)
Definition request (ev : Event) : M Response :=
  let* _ := emit ev in
  fun w =>
    match net w with
    | [] => (Raise ClientError, w)
    | Refused e :: rest => (Raise e, mkWorld (fsm w) (db w) rest (trace w))
    | Answered r :: rest => (Ok r, mkWorld (fsm w) (db w) rest (trace w))
    end.

Definition lift {A} (r : Result A) : M A := fun w => (r, w).

Definition get_data : M FSMData := fun w => (Ok (fsm w), w).

Definition set_state (s : PaginationStates) : M unit :=
  fun w =>
    let d := fsm w in
    (Ok tt, mkWorld (mkFSM (Some s) (page d) (query d) (film_info d))
                    (db w) (net w) (trace w)).

Definition update_data_page (p : Z) : M unit :=
  fun w =>
    let d := fsm w in
    (Ok tt, mkWorld (mkFSM (state d) (Some p) (query d) (film_info d))
                    (db w) (net w) (trace w)).

Definition update_data_search (p : Z) (q : string) (films : list Movie) : M unit :=
  fun w =>
    (Ok tt, mkWorld (mkFSM (state (fsm w)) (Some p) (Some q) (Some films))
                    (db w) (net w) (trace w)).

(** [async with async_session() as session: await f(session, ...)] *)
Definition with_session (f : Db.Database -> Db.Database) : M unit :=
  fun w => (Ok tt, mkWorld (fsm w) (f (db w)) (net w) (trace w)).

Definition read_session {A} (f : Db.Database -> A) : M A :=
  fun w => (Ok (f (db w)), w).

(** ** src/movie_searcher.py *)

Module MovieSearcher.

Definition BASE_KINOPOISKAPI_URL : string :=
  "https://kinopoiskapiunofficial.tech/api/v2.1/films/search-by-keyword".
Definition BASE_SSPOISK_URL : string := "https://sspoisk.ru/".
Definition FILMIX_SEARCH_URL : string :=
  "https://filmix.date/engine/ajax/sphinx_search.php".
Definition MOVIE_FILMIX_URL : string := "https://filmix.date/play/".

Record t := mk {
  kinopoisk_unofficial_api_key : string;
  links_cap : Z;
  movie_cap : Z;
}.

(** [__init__]: the key is required. *)
Definition init (api_key : option string) (links_cap movie_cap : Z) : Result t :=
  match api_key with
  | Some k => if Py.truthy_str k then Ok (mk k links_cap movie_cap) else Raise ValueError
  | None => Raise ValueError
  end.

Definition not_found : Movie := error_movie "Фильм не найден!".

(** [data.get("films", [])]; a value that is not a dictionary has no
    [get]. *)
Definition get_films (data : Json) : M (list Movie) :=
  match data with
  | JDict (Some films) => ret films
  | JDict None => ret []
  | JOther => raise AttributeError
  end.

Definition fetch_movies (self : t) (query : string) : M (list Movie) :=
  try_except
    (let* response := request (Get BASE_KINOPOISKAPI_URL query) in
     let* data :=
       if status response =? 429 then
         let* _ := emit (Sleep 500) in
         let* retry_response := request (Get BASE_KINOPOISKAPI_URL query) in
         lift (json retry_response)
       else if (status response =? 401) || (status response =? 403) then
         let* _ := emit (Log "Invalid kinopoisk API key") in
         ret (JDict None)
       else if negb (status response =? 200) then
         let* _ := emit (Log ("API error: HTTP " +:+ Py.fmt_int (status response))) in
         ret (JDict None)
       else lift (json response) in
     let* results := get_films data in
     match results with
     | [] => ret [not_found]
     | _ :: _ => ret (Py.slice_to results (movie_cap self))
     end)
    (fun e =>
       let* _ := emit (Log "Error during movie info fetch.") in
       raise e).

Section Links.
Context {E : Extern}.

(** The loop over the articles: [continue] on a missing identifier or
    heading, [break] after the first append. *)
Fixpoint _parse_filmix_response (html : list Article) (links : list string)
    (movie_title : string) : list string :=
  match html with
  | [] => links
  | div :: rest =>
      match data_id div with
      | None => _parse_filmix_response rest links movie_title
      | Some movie_id =>
          if negb (Py.truthy_str movie_id)
          then _parse_filmix_response rest links movie_title
          else
            match h2_name div with
            | None => _parse_filmix_response rest links movie_title
            | Some heading =>
                let title := str_strip heading in
                let similarity_ratio :=
                  fuzz_ratio (str_lower title) (str_lower movie_title) in
                if 30 <=? similarity_ratio
                then links ++ [MOVIE_FILMIX_URL +:+ movie_id]
                else _parse_filmix_response rest links movie_title
            end
      end
  end.

Definition filmix_payload (movie_title : string) (movie_year : option string)
    : string :=
  "scf=fx&story=" +:+ movie_title +:+ " " +:+ Py.fmt movie_year
  +:+ "&search_start=0&do=search&subaction=search&years_ot=" +:+ Py.fmt movie_year
  +:+ "&years_do=" +:+ Py.fmt movie_year
  +:+ "&kpi_ot=1&kpi_do=10&imdb_ot=1&imdb_do=10"
  +:+ "&sort_name=&undefined=asc&sort_date=&sort_favorite=&simple=1".

(** [response.raise_for_status()] *)
Definition raise_for_status (response : Response) : M unit :=
  if 400 <=? status response then raise ClientError else ret tt.

(** The list [links] is appended to in place; the updated list is
    returned. *)
Definition _try_add_filmix_link (links : list string) (movie_title : string)
    (movie_year : option string) : M (list string) :=
  let payload := filmix_payload movie_title movie_year in
  try_except
    (let* response := request (Post FILMIX_SEARCH_URL payload) in
     let* _ := raise_for_status response in
     let* html := lift (text response) in
     ret (_parse_filmix_response html links movie_title))
    (fun e =>
       match e with
       | ClientError =>
           let* _ := emit (Log "HTTP error while fetching filmix links") in
           ret links
       | ValueError | TypeError | RuntimeError =>
           let* _ := emit (Log "Error occurred while fetching filmix links") in
           ret links
       | _ => raise e
       end).

Definition fetch_movie_links (self : t) (movie : Movie) : M (list string) :=
  let links := [] in
  let movie_type := if default false (serial movie) then "series" else "film" in
  let movie_id := filmId movie in
  let movie_title := default EmptyString (nameRu movie) in
  let movie_year :=
    match nameRu movie with
    | Some name => Some name
    | None => nameEn movie
    end in
  let links :=
    match movie_id with
    | Some id =>
        if Py.truthy_int id
        then links ++ [BASE_SSPOISK_URL +:+ movie_type +:+ "/" +:+ Py.fmt_int id +:+ "/"]
        else links
    | None => links
    end in
  if Py.len links <? links_cap self
  then _try_add_filmix_link links movie_title movie_year
  else ret links.

End Links.

End MovieSearcher.

(** ** src/cinema_bot.py *)

Module CinemaBot.

(** [MOVIE_CAP] and [LINK_CAP]: the environment value when it is set and
    numeric, the default otherwise (for values made of ASCII bytes, see
    [Py.isnumeric]). *)
Definition cap_from_env (value : option string) (default_cap : Z) : Z :=
  match value with
  | Some v => if Py.truthy_str v && Py.isnumeric v then Py.int v else default_cap
  | None => default_cap
  end.

Definition create_pagination_keyboard (page total_pages : Z) (prefix : string)
    : option InlineKeyboardMarkup :=
  let row := [] in
  let row := if 0 <? page then row ++ [mkButton "◀️" (prefix +:+ "_prev")] else row in
  let row :=
    if page <? total_pages - 1 then row ++ [mkButton "▶️" (prefix +:+ "_next")] else row in
  let keyboard := match row with [] => [] | _ :: _ => [row] end in
  match keyboard with [] => None | _ :: _ => Some keyboard end.

Definition show_history_page (is_callback : bool) (user_id : Z) : M unit :=
  let* data := get_data in
  let page := default 0 (page data) in
  let page_size := 20 in
  let* all_history := read_session (fun s => Db.get_user_history s user_id None) in
  match all_history with
  | [] =>
      emit (Send (mkOutgoing is_callback
        (PlainText "Твоя история поисков пуста. Начни искать фильмы! 🎥") None))
  | _ :: _ =>
      let total_items := Py.len all_history in
      let total_pages := (total_items + page_size - 1) / page_size in
      let page := Z.max 0 (Z.min page (total_pages - 1)) in
      let* _ := update_data_page page in
      let start_idx := page * page_size in
      let end_idx := Z.min (start_idx + page_size) total_items in
      let page_items := Py.slice all_history start_idx end_idx in
      let row := [] in
      let row := if 0 <? page then row ++ [mkButton "◀️" "history_prev"] else row in
      let row :=
        if page <? total_pages - 1 then row ++ [mkButton "▶️" "history_next"] else row in
      let keyboard := match row with [] => [] | _ :: _ => [row] end in
      let markup := match keyboard with [] => None | _ :: _ => Some keyboard end in
      emit (Send (mkOutgoing is_callback
        (HistoryPage page total_pages start_idx page_items) markup))
  end.

Definition command_history_handler (user_id : Z) : M unit :=
  let* _ := set_state history in
  let* _ := update_data_page 0 in
  show_history_page false user_id.

Definition show_stats_page (is_callback : bool) (user_id : Z) : M unit :=
  let* data := get_data in
  let page := default 0 (page data) in
  let page_size := 20 in
  let* user_stats := read_session (fun s => Db.get_user_stats s user_id) in
  match user_stats with
  | [] =>
      emit (Send (mkOutgoing is_callback
        (PlainText "У тебя нет статистики просмотров. Начни искать фильмы! 🎥") None))
  | _ :: _ =>
      let total_items := Py.len user_stats in
      let total_pages := (total_items + page_size - 1) / page_size in
      let page := Z.max 0 (Z.min page (total_pages - 1)) in
      let* _ := update_data_page page in
      let start_idx := page * page_size in
      let end_idx := Z.min (start_idx + page_size) total_items in
      let page_items := Py.slice user_stats start_idx end_idx in
      let row := [] in
      let row := if 0 <? page then row ++ [mkButton "◀️" "stats_prev"] else row in
      let row :=
        if page <? total_pages - 1 then row ++ [mkButton "▶️" "stats_next"] else row in
      let keyboard := match row with [] => [] | _ :: _ => [row] end in
      let markup := match keyboard with [] => None | _ :: _ => Some keyboard end in
      emit (Send (mkOutgoing is_callback
        (StatsPage page total_pages start_idx page_items) markup))
  end.

Definition command_stats_handler (user_id : Z) : M unit :=
  let* _ := set_state stats in
  let* _ := update_data_page 0 in
  show_stats_page false user_id.

(** What [get_film_caption] returns: the bare error text, or the triple
    of caption, name and year. *)
Inductive Caption :=
| CaptionStr (s : string)
| CaptionTuple (caption : string) (film_name film_year : option string).

(** [caption, film_name, film_year = value]: a string unpacks into its
    characters, and only when there are three of them. *)
Definition unpack3 (value : Caption) : M (string * option string * option string) :=
  match value with
  | CaptionTuple caption film_name film_year => ret (caption, film_name, film_year)
  | CaptionStr s =>
      match Py.chars s with
      | [a; b; c] => ret (a, Some b, Some c)
      | _ => raise ValueError
      end
  end.

Section Handlers.
Context {E : Extern} (searcher : MovieSearcher.t).

Definition get_film_caption (film : Movie) : M Caption :=
  match error film with
  | Some message => ret (CaptionStr message)
  | None =>
      let film_name :=
        match nameRu film with
        | Some name => Some name
        | None => nameEn film
        end in
      let film_year := year film in
      let* links := MovieSearcher.fetch_movie_links searcher film in
      ret (CaptionTuple (caption_text film links) film_name film_year)
  end.

Definition show_search_page (is_callback : bool) (user_id : Z) : M unit :=
  let* data := get_data in
  let page := default 0 (page data) in
  let query := default EmptyString (query data) in
  let film_info := default [] (film_info data) in
  match film_info with
  | [] =>
      let* _ := emit (Send (mkOutgoing is_callback (PlainText "Фильм не найден!") None)) in
      with_session (fun s => Db.add_search s user_id query None None)
  | _ :: _ =>
      let total_pages := Py.len film_info in
      let page := Z.max 0 (Z.min page (total_pages - 1)) in
      let* _ := update_data_page page in
      let* film :=
        match Py.index film_info page with
        | Some film => ret film
        | None => raise IndexError
        end in
      let* value := get_film_caption film in
      let* (caption, film_name, film_year) := unpack3 value in
      let markup := create_pagination_keyboard page total_pages "search" in
      let film_poster := default EmptyString (posterUrlPreview film) in
      let* _ := emit (Send (mkOutgoing is_callback (FilmCard caption film_poster) markup)) in
      with_session (fun s => Db.add_search s user_id query film_name film_year)
  end.

Definition movie_search_handler (user_id : Z) (message_text : string) : M unit :=
  let query := str_strip message_text in
  let* film_info :=
    try_except (MovieSearcher.fetch_movies searcher query)
      (fun e =>
         match e with
         | ClientError | TimeoutError =>
             let* _ := emit (Log "API request error") in
             ret [error_movie "Не удалось обработать запрос"]
         | ValueError =>
             let* _ := emit (Log "Value error") in
             ret [error_movie "Некорректные данные запроса"]
         | _ =>
             let* _ := emit (Log "Unexpected error") in
             ret [error_movie "Произошла неизвестная ошибка"]
         end) in
  let* _ := set_state search in
  let* _ := update_data_search 0 query film_info in
  let* _ := show_search_page false user_id in
  with_session (fun s => Db.add_search s user_id query None None).

Definition history_prev_page (user_id : Z) : M unit :=
  let* data := get_data in
  let page := default 0 (page data) in
  let* _ := update_data_page (Z.max 0 (page - 1)) in
  show_history_page true user_id.

Definition history_next_page (user_id : Z) : M unit :=
  let* data := get_data in
  let page := default 0 (page data) in
  let* _ := update_data_page (page + 1) in
  show_history_page true user_id.

Definition stats_prev_page (user_id : Z) : M unit :=
  let* data := get_data in
  let page := default 0 (page data) in
  let* _ := update_data_page (Z.max 0 (page - 1)) in
  show_stats_page true user_id.

Definition stats_next_page (user_id : Z) : M unit :=
  let* data := get_data in
  let page := default 0 (page data) in
  let* _ := update_data_page (page + 1) in
  show_stats_page true user_id.

Definition search_prev_page (user_id : Z) : M unit :=
  let* data := get_data in
  let page := default 0 (page data) in
  let* _ := update_data_page (Z.max 0 (page - 1)) in
  show_search_page true user_id.

Definition search_next_page (user_id : Z) : M unit :=
  let* data := get_data in
  let page := default 0 (page data) in
  let* _ := update_data_page (page + 1) in
  show_search_page true user_id.

(** The callback handlers and the renderer of each navigation context,
    as the dispatcher routes [history_prev], [stats_next], ... *)
Definition prev_page (kind : PaginationStates) : Z -> M unit :=
  match kind with
  | history => history_prev_page
  | stats => stats_prev_page
  | search => search_prev_page
  end.

Definition next_page (kind : PaginationStates) : Z -> M unit :=
  match kind with
  | history => history_next_page
  | stats => stats_next_page
  | search => search_next_page
  end.

Definition show_page (kind : PaginationStates) : bool -> Z -> M unit :=
  match kind with
  | history => show_history_page
  | stats => show_stats_page
  | search => show_search_page
  end.

End Handlers.

End CinemaBot.

(** * Statements *)

(** ** What a coroutine does to the world *)

(** [preserves proj m]: running [m] leaves the component [proj] of the
    world as it found it, whether [m] returns or raises. *)
Definition preserves {X A} (proj : World -> X) (m : M A) : Prop :=
  forall w, proj (after m w) = proj w.

(** [emits Q m]: [m] only ever appends events satisfying [Q] to the trace. *)
Definition emits {A} (Q : Event -> Prop) (m : M A) : Prop :=
  forall w, exists evs, trace (after m w) = trace w ++ evs /\ Forall Q evs.

(** ** Vocabulary of the statements *)

(** The dataset a navigation context pages over, and its page size: the
    user's history, the user's statistics, or the films of the last search
    kept in the FSM data (one film per page). *)
Definition dataset_size (kind : PaginationStates) (user_id : Z) (w : World) : Z :=
  match kind with
  | history => Py.len (Db.get_user_history (db w) user_id None)
  | stats => Py.len (Db.get_user_stats (db w) user_id)
  | search => Py.len (default [] (film_info (fsm w)))
  end.

Definition page_size (kind : PaginationStates) : Z :=
  match kind with
  | history | stats => 20
  | search => 1
  end.

(** The page a world has stored, read as the handlers read it. *)
Definition stored_page (w : World) : Z := default 0 (page (fsm w)).

(** The page count of a context, the clamp of the renderers, and the FSM
    data with another page stored. *)
Definition total_pages (kind : PaginationStates) (user_id : Z) (w : World) : Z :=
  (dataset_size kind user_id w + page_size kind - 1) / page_size kind.

Definition clamp (p total : Z) : Z := Z.max 0 (Z.min p (total - 1)).

Definition turn_to (p : Z) (d : FSMData) : FSMData :=
  mkFSM (state d) (Some p) (query d) (film_info d).

(** The buttons of a markup, and the two navigation controls. *)
Definition buttons (markup : option InlineKeyboardMarkup) : list InlineKeyboardButton :=
  concat (default [] markup).

Definition is_previous (prefix : string) (b : InlineKeyboardButton) : Prop :=
  label b = "◀️" /\ callback_data b = prefix +:+ "_prev".

Definition is_next (prefix : string) (b : InlineKeyboardButton) : Prop :=
  label b = "▶️" /\ callback_data b = prefix +:+ "_next".

(** An event shows page [p] of [total]: a page of history or statistics
    is headed so, and a film card carries the controls of that page. *)
Definition displays (p total : Z) (ev : Event) : Prop :=
  match ev with
  | Send m =>
      match content m with
      | HistoryPage pg tot _ _ | StatsPage pg tot _ _ => pg = p /\ tot = total
      | FilmCard _ _ =>
          reply_markup m = CinemaBot.create_pagination_keyboard p total "search"
      | PlainText _ => True
      end
  | _ => True
  end.

(** Events that are no message to the user. *)
Definition silent (ev : Event) : Prop :=
  match ev with
  | Send _ => False
  | _ => True
  end.

(** A sent page of history or statistics carries the navigation controls
    of the page it shows, and a fixed text carries none. *)
Definition controls_match (ev : Event) : Prop :=
  match ev with
  | Send m =>
      match content m with
      | HistoryPage pg tot _ _ =>
          reply_markup m = CinemaBot.create_pagination_keyboard pg tot "history"
      | StatsPage pg tot _ _ =>
          reply_markup m = CinemaBot.create_pagination_keyboard pg tot "stats"
      | PlainText _ => reply_markup m = None
      | FilmCard _ _ => True
      end
  | _ => True
  end.

(** The search requests and the sleeps among a list of events. *)
Definition is_get (ev : Event) : bool :=
  match ev with Get _ _ => true | _ => false end.

Definition is_sleep (ev : Event) : bool :=
  match ev with Sleep _ => true | _ => false end.

(** An article the scan of the secondary source accepts for a title. *)
Definition qualifies {E : Extern} (movie_title : string) (div : Article) : bool :=
  match data_id div, h2_name div with
  | Some movie_id, Some heading =>
      Py.truthy_str movie_id
      && (30 <=? fuzz_ratio (str_lower (str_strip heading)) (str_lower movie_title))
  | _, _ => false
  end.

(** The rows of a user that fall under a grouping key. *)
Definition rows_of (session : Db.Database) (telegram_id : Z) (k : Db.Key)
    : list Db.SearchHistory :=
  filter (fun r => Db.user_id r = telegram_id /\ Db.key_of r = k)
         (Db.search_history session).

(** The count a list of groups holds for a key (0 when the key has no
    group), and the order of the statistics. *)
Fixpoint tally (k : Db.Key) (groups : list (Db.Key * nat)) : nat :=
  match groups with
  | [] => 0%nat
  | (k', c) :: rest => if decide (k = k') then c else tally k rest
  end.

Definition by_count_desc (a b : Db.Key * nat) : Prop := (snd b <= snd a)%nat.

(** The database after recording a list of searches one by one. *)
Definition record_all (searches : list Db.SearchHistory) (session : Db.Database)
    : Db.Database :=
  fold_left
    (fun s r => Db.add_search s (Db.user_id r) (Db.query r) (Db.film_name r) (Db.film_year r))
    searches session.

(** A run that only sent one message: the database and the outstanding
    answers are as before, the FSM data differ at most in the page, and
    the trace has grown by that message. *)
Definition only_sent (is_callback : bool) (w w' : World) : Prop :=
  db w' = db w /\ net w' = net w /\
  state (fsm w') = state (fsm w) /\ query (fsm w') = query (fsm w) /\
  film_info (fsm w') = film_info (fsm w) /\
  exists m, trace w' = trace w ++ [Send m] /\ edits m = is_callback.

(** The exceptions [_try_add_filmix_link] handles itself. *)
Definition caught (e : Exn) : bool :=
  match e with
  | ClientError | ValueError | TypeError | RuntimeError => true
  | _ => false
  end.

(** How many items a sent page lists. *)
Definition item_count (c : Content) : Z :=
  match c with
  | HistoryPage _ _ _ page_items => Py.len page_items
  | StatsPage _ _ _ page_items => Py.len page_items
  | _ => 0
  end.

(** The error-level log lines among the events. *)
Definition is_log (ev : Event) : bool :=
  match ev with Log _ => true | _ => false end.


(** ** Sample data for the worked instances *)

(** Stand-ins for the library functions: the similarity ratio is read off
    the entry's title when that is a number, and is 0 otherwise. *)
Definition sample_extern : Extern := {|
  fuzz_ratio := fun title _ => if Py.isnumeric title then Py.int title else 0;
  str_lower := fun s => s;
  str_strip := fun s => s;
  caption_text := fun film links => default EmptyString (nameRu film);
|}.

Definition venom : Movie :=
  mkMovie None (Some 42) (Some "Venom") None (Some "2018") None None None None.

Definition film_no (id : Z) : Movie :=
  mkMovie None (Some id) (Some "Interstellar") None (Some "2014") None None None None.

Definition fresh_world (answers : list Outcome) : World :=
  mkWorld (mkFSM None None None None) Db.empty answers [].

Definition ok_films (films : list Movie) : Outcome :=
  Answered (mkResponse 200 (Ok (JDict (Some films))) (Raise ValueError)).

Definition sample_searcher : MovieSearcher.t := MovieSearcher.mk "key" 1 3.

(** A user paging through three found films, on the second of them. *)
Definition three_films : World :=
  mkWorld (mkFSM (Some search) (Some 1) (Some "Venom") (Some [venom; venom; venom]))
          Db.empty [] [].

(** A user with 45 recorded searches whose stored page, 7, is out of
    range. *)
Definition long_history : World :=
  mkWorld (mkFSM (Some history) (Some 7) None None)
          (Db.mkDb [7] (replicate 45 (Db.mkSearch 7 "Venom" (Some "Venom") (Some "2018"))))
          [] [].

(** * Properties *)

(** ** Reasoning about coroutines *)

Lemma after_bind {A B} (m : M A) (k : A -> M B) w :
  after (bind m k) w =
  match fst (m w) with
  | Ok a => after (k a) (after m w)
  | Raise _ => after m w
  end.
Proof. unfold after, bind. destruct (m w) as [[a|e] w']; reflexivity. Qed.

Lemma after_try {A} (m : M A) (h : Exn -> M A) w :
  after (try_except m h) w =
  match fst (m w) with
  | Ok _ => after m w
  | Raise e => after (h e) (after m w)
  end.
Proof. unfold after, try_except. destruct (m w) as [[a|e] w']; reflexivity. Qed.

Lemma preserves_bind {X A B} (proj : World -> X) (m : M A) (k : A -> M B) :
  preserves proj m -> (forall a, preserves proj (k a)) -> preserves proj (bind m k).
Proof.
  intros Hm Hk w. rewrite after_bind.
  destruct (fst (m w)); [rewrite Hk|]; apply Hm.
Qed.

Lemma preserves_try {X A} (proj : World -> X) (m : M A) (h : Exn -> M A) :
  preserves proj m -> (forall e, preserves proj (h e)) -> preserves proj (try_except m h).
Proof.
  intros Hm Hh w. rewrite after_try.
  destruct (fst (m w)); [|rewrite Hh]; apply Hm.
Qed.

Lemma emits_bind {A B} Q (m : M A) (k : A -> M B) :
  emits Q m -> (forall a, emits Q (k a)) -> emits Q (bind m k).
Proof.
  intros Hm Hk w. rewrite after_bind.
  destruct (Hm w) as (evs & Htr & Hq).
  destruct (fst (m w)) as [a|e]; [|eauto].
  destruct (Hk a (after m w)) as (evs' & Htr' & Hq').
  exists (evs ++ evs'). split.
  - rewrite Htr', Htr. symmetry. apply (assoc_L (++)).
  - apply Forall_app; auto.
Qed.

Lemma emits_try {A} Q (m : M A) (h : Exn -> M A) :
  emits Q m -> (forall e, emits Q (h e)) -> emits Q (try_except m h).
Proof.
  intros Hm Hh w. rewrite after_try.
  destruct (Hm w) as (evs & Htr & Hq).
  destruct (fst (m w)) as [a|e]; [eauto|].
  destruct (Hh e (after m w)) as (evs' & Htr' & Hq').
  exists (evs ++ evs'). split.
  - rewrite Htr', Htr. symmetry. apply (assoc_L (++)).
  - apply Forall_app; auto.
Qed.

Lemma emits_mono {A} (Q Q' : Event -> Prop) (m : M A) :
  (forall ev, Q ev -> Q' ev) -> emits Q m -> emits Q' m.
Proof.
  intros Himp Hm w. destruct (Hm w) as (evs & Htr & Hq).
  exists evs. split; [exact Htr|]. eapply Forall_impl; eauto.
Qed.

Lemma emits_quiet {A} Q (m : M A) : preserves trace m -> emits Q m.
Proof. intros Hm w. exists []. rewrite Hm, app_nil_r. auto. Qed.

Lemma emits_emit Q ev : Q ev -> emits Q (emit ev).
Proof. intros Hq w. exists [ev]. split; [reflexivity|]. repeat constructor. exact Hq. Qed.

Lemma emits_request Q ev : Q ev -> emits Q (request ev).
Proof.
  intros Hq w. exists [ev]. split; [|repeat constructor; exact Hq].
  unfold after, request, bind, emit. simpl.
  destruct (net w) as [|[e|r] rest]; reflexivity.
Qed.

(** The primitives, by computation. *)
Ltac primitive :=
  let w := fresh "w" in
  intros w;
  unfold after, request, emit, bind, ret, raise, lift, get_data, set_state,
    update_data_page, update_data_search, with_session, read_session; simpl;
  try (destruct (net w) as [|[?|?] ?]; reflexivity);
  reflexivity.

(** Splitting a coroutine along its binds, handlers and case analyses. *)
Ltac frame :=
  repeat first
    [ apply preserves_bind; [|intros ?]
    | apply preserves_try; [|intros ?]
    | match goal with
      | |- preserves _ (match ?x with _ => _ end) => destruct x
      | |- preserves _ (if ?x then _ else _) => destruct x
      end
    | solve [primitive] ].

(** ** Navigation controls *)

Lemma keyboard_buttons page total prefix :
  buttons (CinemaBot.create_pagination_keyboard page total prefix) =
  (if 0 <? page then [mkButton "◀️" (prefix +:+ "_prev")] else []) ++
  (if page <? total - 1 then [mkButton "▶️" (prefix +:+ "_next")] else []).
Proof.
  unfold buttons, CinemaBot.create_pagination_keyboard.
  destruct (0 <? page), (page <? total - 1); reflexivity.
Qed.

Lemma emits_show_history_page is_callback user_id :
  emits controls_match (CinemaBot.show_history_page is_callback user_id).
Proof.
  unfold CinemaBot.show_history_page.
  apply emits_bind; [apply emits_quiet; primitive|intros data].
  apply emits_bind; [apply emits_quiet; primitive|intros [|r all_history]].
  - apply emits_emit. reflexivity.
  - apply emits_bind; [apply emits_quiet; primitive|intros _].
    apply emits_emit. reflexivity.
Qed.

Lemma emits_show_stats_page is_callback user_id :
  emits controls_match (CinemaBot.show_stats_page is_callback user_id).
Proof.
  unfold CinemaBot.show_stats_page.
  apply emits_bind; [apply emits_quiet; primitive|intros data].
  apply emits_bind; [apply emits_quiet; primitive|intros [|r user_stats]].
  - apply emits_emit. reflexivity.
  - apply emits_bind; [apply emits_quiet; primitive|intros _].
    apply emits_emit. reflexivity.
Qed.

Ltac emitting :=
  repeat first
    [ apply emits_bind; [|intros ?]
    | apply emits_try; [|intros ?]
    | match goal with
      | |- emits _ (match ?x with _ => _ end) => destruct x
      | |- emits _ (if ?x then _ else _) => destruct x
      | H : forall film, emits ?Q (MovieSearcher.fetch_movie_links _ film)
        |- emits ?Q (MovieSearcher.fetch_movie_links _ _) => apply H
      end
    | apply emits_emit; solve [repeat intro; simpl; auto]
    | apply emits_request; solve [repeat intro; simpl; auto]
    | apply emits_quiet; solve [primitive] ].

(** ** Paging *)

Section Rendering.
Context {E : Extern} (searcher : MovieSearcher.t).

Lemma preserves_fsm_fetch_movie_links film :
  preserves fsm (MovieSearcher.fetch_movie_links searcher film).
Proof.
  unfold MovieSearcher.fetch_movie_links, MovieSearcher._try_add_filmix_link,
    MovieSearcher.raise_for_status.
  frame.
Qed.

Lemma preserves_fsm_get_film_caption film :
  preserves fsm (CinemaBot.get_film_caption searcher film).
Proof.
  unfold CinemaBot.get_film_caption.
  destruct (error film); [primitive|].
  apply preserves_bind; [apply preserves_fsm_fetch_movie_links|intros ?; primitive].
Qed.

Lemma preserves_fsm_unpack3 value : preserves fsm (CinemaBot.unpack3 value).
Proof. unfold CinemaBot.unpack3. frame. Qed.

Lemma show_page_fsm kind is_callback user_id w :
  0 < dataset_size kind user_id w ->
  fsm (after (CinemaBot.show_page searcher kind is_callback user_id) w) =
  turn_to (clamp (stored_page w) (total_pages kind user_id w)) (fsm w).
Proof.
  unfold total_pages, dataset_size, stored_page.
  destruct kind; cbn [CinemaBot.show_page page_size]; intros Hn.
  - unfold CinemaBot.show_history_page, after, bind, get_data, read_session.
    destruct (Db.get_user_history (db w) user_id None); [inversion Hn|reflexivity].
  - unfold CinemaBot.show_stats_page, after, bind, get_data, read_session.
    destruct (Db.get_user_stats (db w) user_id); [inversion Hn|reflexivity].
  - unfold CinemaBot.show_search_page. rewrite after_bind. simpl.
    change (after get_data w) with w.
    destruct (film_info (fsm w)) as [[|film films]|]; simpl in *; try (inversion Hn; fail).
    rewrite after_bind. simpl.
    set (w1 := after (update_data_page _) w).
    assert (Hrest : forall m : M unit, preserves fsm m -> fsm (after m w1) = fsm w1)
      by (intros m Hm; apply Hm).
    rewrite Hrest.
    + subst w1. unfold after, update_data_page, turn_to, clamp. simpl.
      rewrite Z.div_1_r. do 3 f_equal. lia.
    + apply preserves_bind; [frame|intros film'].
      apply preserves_bind; [apply preserves_fsm_get_film_caption|intros value].
      apply preserves_bind; [apply preserves_fsm_unpack3|intros [[caption name] yr]].
      frame.
Qed.

Lemma show_page_db kind is_callback user_id :
  kind <> search ->
  preserves db (CinemaBot.show_page searcher kind is_callback user_id).
Proof.
  destruct kind; intros Hk; try contradiction; cbn [CinemaBot.show_page].
  - unfold CinemaBot.show_history_page. frame.
  - unfold CinemaBot.show_stats_page. frame.
Qed.

Lemma dataset_size_turn kind user_id w w' :
  db w' = db w -> film_info (fsm w') = film_info (fsm w) ->
  dataset_size kind user_id w' = dataset_size kind user_id w.
Proof. unfold dataset_size. intros -> ->. reflexivity. Qed.

(** Rendering keeps the dataset of its own context. *)
Lemma show_page_dataset kind is_callback user_id w :
  0 < dataset_size kind user_id w ->
  dataset_size kind user_id
    (after (CinemaBot.show_page searcher kind is_callback user_id) w) =
  dataset_size kind user_id w.
Proof.
  intros Hn. pose proof (show_page_fsm kind is_callback user_id w Hn) as Hf.
  destruct kind; unfold dataset_size.
  - rewrite (show_page_db history); [reflexivity|discriminate].
  - rewrite (show_page_db stats); [reflexivity|discriminate].
  - rewrite Hf. reflexivity.
Qed.

(** A navigation event stores the moved page and renders. *)
Lemma after_prev_page kind user_id w :
  after (CinemaBot.prev_page searcher kind user_id) w =
  after (CinemaBot.show_page searcher kind true user_id)
        (after (update_data_page (Z.max 0 (stored_page w - 1))) w).
Proof. destruct kind; reflexivity. Qed.

Lemma after_next_page kind user_id w :
  after (CinemaBot.next_page searcher kind user_id) w =
  after (CinemaBot.show_page searcher kind true user_id)
        (after (update_data_page (stored_page w + 1)) w).
Proof. destruct kind; reflexivity. Qed.

Lemma turned_page kind user_id w (move : Z) :
  0 < dataset_size kind user_id w ->
  let w' := after (CinemaBot.show_page searcher kind true user_id)
                  (after (update_data_page move) w) in
  page (fsm w') = Some (clamp move (total_pages kind user_id w)) /\
  dataset_size kind user_id w' = dataset_size kind user_id w.
Proof.
  intros Hn w'. subst w'.
  set (w1 := after (update_data_page move) w).
  assert (H1 : dataset_size kind user_id w1 = dataset_size kind user_id w)
    by (apply dataset_size_turn; reflexivity).
  split.
  - rewrite show_page_fsm by (rewrite H1; exact Hn).
    unfold total_pages. rewrite H1. reflexivity.
  - rewrite show_page_dataset by (rewrite H1; exact Hn). exact H1.
Qed.

Lemma total_pages_same kind user_id w w' :
  dataset_size kind user_id w' = dataset_size kind user_id w ->
  total_pages kind user_id w' = total_pages kind user_id w.
Proof. unfold total_pages. intros ->. reflexivity. Qed.

Lemma page_size_pos kind : 0 < page_size kind.
Proof. destruct kind; reflexivity. Qed.

(** The page count is the ceiling of the quotient, and at least 1. *)
Lemma total_pages_ceiling kind user_id w :
  0 < dataset_size kind user_id w ->
  (total_pages kind user_id w - 1) * page_size kind < dataset_size kind user_id w
    <= total_pages kind user_id w * page_size kind
  /\ 1 <= total_pages kind user_id w.
Proof.
  intros Hn. unfold total_pages.
  pose proof (page_size_pos kind) as HP.
  generalize dependent (dataset_size kind user_id w).
  generalize dependent (page_size kind). intros P HP n Hn.
  pose proof (Z.div_mod (n + P - 1) P ltac:(lia)) as Hdm.
  pose proof (Z.mod_pos_bound (n + P - 1) P HP) as Hb.
  nia.
Qed.

(** C1: in each navigation context over a non-empty dataset, [prev] then
    [next] and [next] then [prev] from an interior page store the page
    they started from, [prev] at page 0 stores 0, and [next] at the last
    page stores the last page. *)
Theorem prev_next_round_trip kind user_id w :
  0 < dataset_size kind user_id w ->
  let p := stored_page w in
  let last := total_pages kind user_id w - 1 in
  let prev := after (CinemaBot.prev_page searcher kind user_id) in
  let next := after (CinemaBot.next_page searcher kind user_id) in
  (0 < p < last ->
     page (fsm (next (prev w))) = Some p /\ page (fsm (prev (next w))) = Some p) /\
  (p = 0 -> page (fsm (prev w)) = Some 0) /\
  (p = last -> page (fsm (next w)) = Some p).
Proof.
  intros Hn p last prev next. subst prev next.
  pose proof (turned_page kind user_id w (Z.max 0 (stored_page w - 1)) Hn) as [Hp Hpd].
  pose proof (turned_page kind user_id w (stored_page w + 1) Hn) as [Hx Hxd].
  cbv zeta in *. rewrite <- after_prev_page in Hp, Hpd.
  rewrite <- after_next_page in Hx, Hxd.
  subst p last.
  split; [|split].
  - intros Hint. split.
    + rewrite after_next_page.
      set (w1 := after (CinemaBot.prev_page searcher kind user_id) w) in *.
      assert (Hn1 : 0 < dataset_size kind user_id w1) by (rewrite Hpd; exact Hn).
      destruct (turned_page kind user_id w1 (stored_page w1 + 1) Hn1) as [-> _].
      rewrite (total_pages_same _ _ _ _ Hpd).
      unfold stored_page at 1. rewrite Hp. unfold clamp. simpl. f_equal. lia.
    + rewrite after_prev_page.
      set (w1 := after (CinemaBot.next_page searcher kind user_id) w) in *.
      assert (Hn1 : 0 < dataset_size kind user_id w1) by (rewrite Hxd; exact Hn).
      destruct (turned_page kind user_id w1 (Z.max 0 (stored_page w1 - 1)) Hn1) as [-> _].
      rewrite (total_pages_same _ _ _ _ Hxd).
      unfold stored_page at 1. rewrite Hx. unfold clamp. simpl. f_equal. lia.
  - intros H0. rewrite Hp. unfold clamp. f_equal.
    pose proof (total_pages_ceiling kind user_id w Hn). lia.
  - intros Hl. rewrite Hx. unfold clamp. f_equal.
    pose proof (total_pages_ceiling kind user_id w Hn). lia.
Qed.

Lemma emits_silent_fetch_movie_links film :
  emits silent (MovieSearcher.fetch_movie_links searcher film).
Proof.
  unfold MovieSearcher.fetch_movie_links, MovieSearcher._try_add_filmix_link,
    MovieSearcher.raise_for_status.
  emitting.
Qed.

Lemma emits_displays_fetch_movie_links p total film :
  emits (displays p total) (MovieSearcher.fetch_movie_links searcher film).
Proof.
  eapply emits_mono; [|apply emits_silent_fetch_movie_links].
  intros [| | | |m]; simpl; tauto.
Qed.

(** The card of a search page carries the controls of the stored page. *)
Lemma emits_search_card is_callback user_id p (query : string) films :
  emits (displays p (Py.len films))
    (let* _ := update_data_page p in
     let* film :=
       match Py.index films p with
       | Some film => ret film
       | None => raise IndexError
       end in
     let* value := CinemaBot.get_film_caption searcher film in
     let* (caption, film_name, film_year) := CinemaBot.unpack3 value in
     let markup := CinemaBot.create_pagination_keyboard p (Py.len films) "search" in
     let film_poster := default EmptyString (posterUrlPreview film) in
     let* _ := emit (Send (mkOutgoing is_callback (FilmCard caption film_poster) markup)) in
     with_session (fun s => Db.add_search s user_id query film_name film_year)).
Proof.
  unfold CinemaBot.get_film_caption, CinemaBot.unpack3.
  pose proof (emits_displays_fetch_movie_links p (Py.len films)).
  emitting.
Qed.

(** C2: over a non-empty dataset and whatever page was stored, the page
    count is the ceiling of the dataset size over the page size and at
    least 1, and the renderer stores and shows a page within
    [0, total_pages). *)
Theorem rendering_clamps_page kind is_callback user_id w :
  0 < dataset_size kind user_id w ->
  let n := dataset_size kind user_id w in
  let total := total_pages kind user_id w in
  let w' := after (CinemaBot.show_page searcher kind is_callback user_id) w in
  ((total - 1) * page_size kind < n <= total * page_size kind) /\
  1 <= total /\
  exists p,
    page (fsm w') = Some p /\ p = clamp (stored_page w) total /\ 0 <= p < total /\
    exists evs, trace w' = trace w ++ evs /\ Forall (displays p total) evs.
Proof.
  intros Hn n total w'. subst n total w'.
  destruct (total_pages_ceiling kind user_id w Hn) as [Hceil Hpos].
  split; [exact Hceil|]. split; [exact Hpos|].
  exists (clamp (stored_page w) (total_pages kind user_id w)).
  split; [rewrite show_page_fsm by exact Hn; reflexivity|].
  split; [reflexivity|]. split; [unfold clamp; lia|].
  unfold total_pages, dataset_size, clamp, stored_page in *.
  destruct kind; cbn [CinemaBot.show_page page_size] in *.
  - unfold CinemaBot.show_history_page, after, bind, get_data, read_session.
    destruct (Db.get_user_history (db w) user_id None) as [|r rs]; [inversion Hn|].
    eexists. split; [reflexivity|]. repeat constructor.
  - unfold CinemaBot.show_stats_page, after, bind, get_data, read_session.
    destruct (Db.get_user_stats (db w) user_id) as [|r rs]; [inversion Hn|].
    eexists. split; [reflexivity|]. repeat constructor.
  - unfold CinemaBot.show_search_page. rewrite after_bind.
    change (after get_data w) with w. cbn [get_data fst].
    rewrite Z.add_simpl_r, Z.div_1_r.
    destruct (film_info (fsm w)) as [[|film films]|]; try (inversion Hn; fail).
    apply emits_search_card.
Qed.
End Rendering.

Lemma prev_next_round_trip_witness :
  let prev := after (CinemaBot.prev_page (E := sample_extern) sample_searcher search 7) in
  let next := after (CinemaBot.next_page (E := sample_extern) sample_searcher search 7) in
  page (fsm (next (prev three_films))) = Some 1 /\
  page (fsm (prev (next three_films))) = Some 1.
Proof.
  apply (proj1 (prev_next_round_trip (E := sample_extern) sample_searcher
                  search 7 three_films eq_refl)).
  split; reflexivity.
Defined.

Lemma rendering_clamps_page_witness :
  exists p,
    page (fsm (after (CinemaBot.show_page (E := sample_extern) sample_searcher
                        history true 7) long_history)) = Some p /\
    p = 2 /\ 0 <= p < 3.
Proof.
  destruct (rendering_clamps_page (E := sample_extern) sample_searcher
              history true 7 long_history eq_refl)
    as (_ & _ & p & Hpage & Hclamp & Hrange & _).
  exists p. split; [exact Hpage|]. split; [exact Hclamp|exact Hrange].
Defined.

(** ** The controls of the rendered pages *)

Section Controls.
Context {E : Extern} (searcher : MovieSearcher.t).

Lemma emits_silent_get_film_caption film :
  emits silent (CinemaBot.get_film_caption searcher film).
Proof.
  unfold CinemaBot.get_film_caption.
  pose proof (emits_silent_fetch_movie_links searcher).
  emitting.
Qed.

(** A search page that returns has sent its card last, with the controls
    of the clamped page. *)
Lemma show_search_page_card is_callback user_id w :
  0 < dataset_size search user_id w ->
  fst (CinemaBot.show_search_page searcher is_callback user_id w) = Ok tt ->
  exists evs m,
    trace (after (CinemaBot.show_search_page searcher is_callback user_id) w)
      = trace w ++ evs ++ [Send m] /\
    Forall silent evs /\
    edits m = is_callback /\
    (exists caption poster, content m = FilmCard caption poster) /\
    reply_markup m =
      CinemaBot.create_pagination_keyboard
        (clamp (stored_page w) (total_pages search user_id w))
        (total_pages search user_id w) "search".
Proof.
  unfold total_pages, dataset_size, stored_page, clamp, after. cbn [page_size].
  rewrite Z.add_simpl_r, Z.div_1_r.
  unfold CinemaBot.show_search_page.
  cbv [bind get_data update_data_page emit with_session ret raise].
  cbn [fsm db net trace fst snd].
  destruct (film_info (fsm w)) as [[|film0 films]|];
    cbn [default from_option id fst snd db fsm]; try (intros Hn; inversion Hn; fail).
  intros _.
  set (p := Z.max 0 (Z.min (default 0 (page (fsm w))) (Py.len (film0 :: films) - 1))).
  destruct (Py.index (film0 :: films) p) as [film|]; cbn [fst snd trace];
    [|discriminate].
  match goal with
  | |- context [CinemaBot.get_film_caption searcher film ?w1] =>
      destruct (emits_silent_get_film_caption film w1) as (evs & Htrace & Hsilent);
      unfold after in Htrace;
      destruct (CinemaBot.get_film_caption searcher film w1) as [[value|e] w2]
  end; cbn [fst snd trace] in *; [|discriminate].
  destruct value as [s|caption name yr]; cbn [CinemaBot.unpack3].
  - destruct (Py.chars s) as [|a [|b [|c [|d rest]]]]; cbn [fst snd trace ret raise];
      try discriminate.
    intros _. exists evs. eexists. rewrite Htrace, <- (assoc_L (++)).
    split; [reflexivity|]. split; [exact Hsilent|]. split; [reflexivity|].
    split; [eauto|reflexivity].
  - cbn [fst snd trace ret]. intros _. exists evs. eexists.
    rewrite Htrace, <- (assoc_L (++)).
    split; [reflexivity|]. split; [exact Hsilent|]. split; [reflexivity|].
    split; [eauto|reflexivity].
Qed.

(** C3: the keyboard holds a previous control exactly when [0 < page], a
    next control exactly when [page < page_count - 1], and is absent
    exactly when neither holds, as on the only page of a single-page
    dataset.  Every rendering of history or statistics sends exactly one
    message: over a non-empty dataset the page of the clamped index,
    carrying the keyboard of that index and the page count; over an empty
    one a fixed text with no keyboard.  A rendering of search results
    that returns has sent, last, a film card carrying the keyboard of the
    clamped index and the number of films. *)
Theorem navigation_controls (page page_count : Z) (prefix : string) :
  let markup := CinemaBot.create_pagination_keyboard page page_count prefix in
  ((exists b, b ∈ buttons markup /\ is_previous prefix b) <-> 0 < page) /\
  ((exists b, b ∈ buttons markup /\ is_next prefix b) <-> page < page_count - 1) /\
  (markup = None <-> ~ 0 < page /\ ~ page < page_count - 1) /\
  CinemaBot.create_pagination_keyboard 0 1 prefix = None /\
  (forall is_callback user_id,
     emits controls_match (CinemaBot.show_history_page is_callback user_id) /\
     emits controls_match (CinemaBot.show_stats_page is_callback user_id)) /\
  (forall is_callback user_id w,
     let total := total_pages history user_id w in
     let p := clamp (stored_page w) total in
     exists m,
       trace (after (CinemaBot.show_history_page is_callback user_id) w)
         = trace w ++ [Send m] /\
       edits m = is_callback /\
       (dataset_size history user_id w = 0 ->
        (exists message, content m = PlainText message) /\ reply_markup m = None) /\
       (0 < dataset_size history user_id w ->
        (exists start_idx page_items,
           content m = HistoryPage p total start_idx page_items) /\
        reply_markup m = CinemaBot.create_pagination_keyboard p total "history")) /\
  (forall is_callback user_id w,
     let total := total_pages stats user_id w in
     let p := clamp (stored_page w) total in
     exists m,
       trace (after (CinemaBot.show_stats_page is_callback user_id) w)
         = trace w ++ [Send m] /\
       edits m = is_callback /\
       (dataset_size stats user_id w = 0 ->
        (exists message, content m = PlainText message) /\ reply_markup m = None) /\
       (0 < dataset_size stats user_id w ->
        (exists start_idx page_items,
           content m = StatsPage p total start_idx page_items) /\
        reply_markup m = CinemaBot.create_pagination_keyboard p total "stats")) /\
  (forall is_callback user_id w,
     let total := total_pages search user_id w in
     let p := clamp (stored_page w) total in
     0 < dataset_size search user_id w ->
     fst (CinemaBot.show_search_page searcher is_callback user_id w) = Ok tt ->
     exists evs m,
       trace (after (CinemaBot.show_search_page searcher is_callback user_id) w)
         = trace w ++ evs ++ [Send m] /\
       Forall silent evs /\
       edits m = is_callback /\
       (exists caption poster, content m = FilmCard caption poster) /\
       reply_markup m = CinemaBot.create_pagination_keyboard p total "search").
Proof.
  intros markup. subst markup. rewrite keyboard_buttons.
  split; [|split; [|split; [|split; [reflexivity|split; [|split; [|split]]]]]].
  - split.
    + intros (b & Hb & Hl & _). destruct (Z.ltb_spec 0 page); [assumption|].
      destruct (page <? page_count - 1); simpl in Hb.
      * apply list_elem_of_singleton in Hb. subst b. discriminate Hl.
      * inversion Hb.
    + intros Hp. apply Z.ltb_lt in Hp. rewrite Hp.
      eexists. split; [left|split; reflexivity].
  - split.
    + intros (b & Hb & Hl & _).
      destruct (Z.ltb_spec page (page_count - 1)); [assumption|].
      destruct (0 <? page); simpl in Hb.
      * apply list_elem_of_singleton in Hb. subst b. discriminate Hl.
      * inversion Hb.
    + intros Hn. apply Z.ltb_lt in Hn. rewrite Hn.
      exists (mkButton "▶️" (prefix +:+ "_next")). split; [|split; reflexivity].
      apply elem_of_app. right. left.
  - unfold CinemaBot.create_pagination_keyboard.
    destruct (Z.ltb_spec 0 page), (Z.ltb_spec page (page_count - 1)); simpl;
      (split; [try discriminate; intros _; lia | try reflexivity; intros []; lia]).
  - intros is_callback user_id. split.
    + apply emits_show_history_page.
    + apply emits_show_stats_page.
  - intros is_callback user_id w total p. subst total p.
    unfold total_pages, dataset_size, stored_page, clamp, Py.len. cbn [page_size].
    unfold CinemaBot.show_history_page, after.
    cbv [bind get_data read_session update_data_page emit]. cbn [fsm db net trace fst snd].
    destruct (Db.get_user_history (db w) user_id None) as [|r rs];
      cbn [fst snd trace]; eexists; (split; [reflexivity|]);
      (split; [reflexivity|]); cbn [content reply_markup]; split.
    + intros _. split; [eauto|reflexivity].
    + intros Hn. inversion Hn.
    + intros Hn. simpl length in Hn. lia.
    + intros _. split; [eauto|reflexivity].
  - intros is_callback user_id w total p. subst total p.
    unfold total_pages, dataset_size, stored_page, clamp, Py.len. cbn [page_size].
    unfold CinemaBot.show_stats_page, after.
    cbv [bind get_data read_session update_data_page emit]. cbn [fsm db net trace fst snd].
    destruct (Db.get_user_stats (db w) user_id) as [|r rs];
      cbn [fst snd trace]; eexists; (split; [reflexivity|]);
      (split; [reflexivity|]); cbn [content reply_markup]; split.
    + intros _. split; [eauto|reflexivity].
    + intros Hn. inversion Hn.
    + intros Hn. simpl length in Hn. lia.
    + intros _. split; [eauto|reflexivity].
  - intros is_callback user_id w total p. subst total p.
    apply show_search_page_card.
Qed.
End Controls.

(** ** Film lookup *)

Ltac run_fetch_movies :=
  cbv [MovieSearcher.fetch_movies MovieSearcher.get_films try_except bind
       request emit lift ret raise after]; simpl.

Lemma slice_to_take {A} (l : list A) (k : Z) :
  0 <= k -> Py.slice_to l k = take (Z.to_nat k) l.
Proof.
  intros Hk. unfold Py.slice_to.
  destruct (Z.ltb_spec k 0); [lia|reflexivity].
Qed.

Lemma len_take_le {A} (l : list A) (k : Z) :
  0 <= k -> Py.len (take (Z.to_nat k) l) <= k.
Proof. intros Hk. unfold Py.len. rewrite length_take. lia. Qed.

(** What is made of the parsed body: the sentinel, or the leading films. *)
Lemma fetch_movies_bound self query w films :
  0 <= MovieSearcher.movie_cap self ->
  fst (MovieSearcher.fetch_movies self query w) = Ok films ->
  films = [MovieSearcher.not_found] \/
  exists provided rest r,
    provided <> [] /\ json r = Ok (JDict (Some provided)) /\
    (status r = 200 /\ net w = Answered r :: rest \/
     exists r1, status r1 = 429 /\ net w = Answered r1 :: Answered r :: rest) /\
    films = take (Z.to_nat (MovieSearcher.movie_cap self)) provided.
Proof.
  intros Hcap. run_fetch_movies.
  destruct (net w) as [|[e|r] rest] eqn:Hnet; simpl; try discriminate.
  destruct (status r =? 429) eqn:H429; simpl.
  - destruct rest as [|[e|r2] rest]; simpl; try discriminate.
    destruct (json r2) as [[[[|f fs]|]|]|e] eqn:Hj; simpl; try discriminate;
      intros [= <-]; auto.
    right. exists (f :: fs), rest, r2. rewrite slice_to_take by exact Hcap.
    apply Z.eqb_eq in H429. repeat split; eauto; discriminate.
  - destruct ((status r =? 401) || (status r =? 403)); simpl; [intros [= <-]; auto|].
    destruct (Z.eqb_spec (status r) 200) as [H200|H200]; simpl; [|intros [= <-]; auto].
    destruct (json r) as [[[[|f fs]|]|]|e] eqn:Hj; simpl; try discriminate;
      intros [= <-]; auto.
    right. exists (f :: fs), rest, r. rewrite slice_to_take by exact Hcap.
    repeat split; eauto; discriminate.
Qed.

(** C4, amended: for a cap that is not negative, whatever the provider
    answers the service returns at most [max 1 movie_cap] candidates: the
    sentinel alone, or the first [movie_cap] films of the provider's
    non-empty list in the provider's order.  A 200 answer with films gives
    that prefix; one with no film, and any status other than 200 and 429,
    gives exactly the sentinel with the text [Фильм не найден!]. *)
Theorem fetch_movies_truncates self query w :
  0 <= MovieSearcher.movie_cap self ->
  let cap := MovieSearcher.movie_cap self in
  let result := fst (MovieSearcher.fetch_movies self query w) in
  (forall films, result = Ok films ->
     Py.len films <= Z.max 1 cap /\
     (films = [error_movie "Фильм не найден!"] \/
      exists provided rest r,
        provided <> [] /\ json r = Ok (JDict (Some provided)) /\
        (status r = 200 /\ net w = Answered r :: rest \/
         exists r1, status r1 = 429 /\ net w = Answered r1 :: Answered r :: rest) /\
        films = take (Z.to_nat cap) provided)) /\
  (forall r rest,
     net w = Answered r :: rest ->
     (forall film provided,
        status r = 200 -> json r = Ok (JDict (Some (film :: provided))) ->
        result = Ok (take (Z.to_nat cap) (film :: provided))) /\
     (status r = 200 -> json r = Ok (JDict (Some [])) \/ json r = Ok (JDict None) ->
      result = Ok [error_movie "Фильм не найден!"]) /\
     (status r <> 200 -> status r <> 429 ->
      result = Ok [error_movie "Фильм не найден!"])).
Proof.
  intros Hcap cap result. subst cap result. split.
  - intros films Hres.
    pose proof (fetch_movies_bound self query w films Hcap Hres) as Hb.
    split; [|exact Hb].
    destruct Hb as [->|(provided & rest & r & _ & _ & _ & ->)].
    + unfold Py.len. simpl. lia.
    + pose proof (len_take_le provided _ Hcap). lia.
  - intros r rest Hnet. run_fetch_movies. rewrite Hnet. simpl. repeat split.
    + intros film provided -> ->. simpl. rewrite slice_to_take by exact Hcap. reflexivity.
    + intros -> [-> | ->]; reflexivity.
    + intros H200 H429.
      apply Z.eqb_neq in H200, H429. rewrite H429, H200. simpl.
      destruct ((status r =? 401) || (status r =? 403)); reflexivity.
Qed.

Lemma fetch_movies_truncates_witness :
  fst (MovieSearcher.fetch_movies sample_searcher "Interstellar"
         (fresh_world [ok_films [film_no 1; film_no 2; film_no 3; film_no 4; film_no 5]]))
  = Ok [film_no 1; film_no 2; film_no 3].
Proof.
  refine (proj1 (proj2 (fetch_movies_truncates sample_searcher "Interstellar"
            (fresh_world [ok_films [film_no 1; film_no 2; film_no 3; film_no 4; film_no 5]]) _)
            _ _ eq_refl) _ _ eq_refl eq_refl).
  discriminate.
Defined.

(** With [MOVIE_CAP=0] a provider answer without films still returns one
    candidate, the sentinel. *)
Lemma fetch_movies_sentinel_exceeds_cap :
  CinemaBot.cap_from_env (Some "0") 3 = 0 /\
  exists films,
    fst (MovieSearcher.fetch_movies (MovieSearcher.mk "key" 1 0) "zzz"
           (fresh_world [ok_films []])) = Ok films /\
    MovieSearcher.movie_cap (MovieSearcher.mk "key" 1 0) < Py.len films.
Proof. split; [reflexivity|]. eexists. split; reflexivity. Qed.

(** C5, amended: on a 429 answer the service sleeps 500 ms and sends the
    request exactly once more, whatever comes back.  The retry's status is
    not looked at: a body that parses to a dictionary is used (its leading
    films, or the sentinel when it has none); a refused retry, a body that
    does not parse and a body that is no dictionary are logged and raised
    to the caller. *)
Theorem fetch_movies_retries_once self query w r1 rest :
  net w = Answered r1 :: rest ->
  status r1 = 429 ->
  let run := MovieSearcher.fetch_movies self query w in
  let asked := Get MovieSearcher.BASE_KINOPOISKAPI_URL query in
  trace (snd run) =
    trace w ++ [asked; Sleep 500; asked] ++
    match fst run with
    | Ok _ => []
    | Raise _ => [Log "Error during movie info fetch."]
    end /\
  net (snd run) = tail rest /\
  match rest with
  | [] => fst run = Raise ClientError
  | Refused e :: _ => fst run = Raise e
  | Answered r2 :: _ =>
      match json r2 with
      | Raise e => fst run = Raise e
      | Ok JOther => fst run = Raise AttributeError
      | Ok (JDict None) | Ok (JDict (Some [])) =>
          fst run = Ok [error_movie "Фильм не найден!"]
      | Ok (JDict (Some (film :: provided))) =>
          fst run = Ok (Py.slice_to (film :: provided) (MovieSearcher.movie_cap self))
      end
  end.
Proof.
  intros Hnet H429 run asked. subst run asked.
  cbv [MovieSearcher.fetch_movies MovieSearcher.get_films try_except bind
       request emit lift ret raise after]; simpl.
  rewrite Hnet. simpl. rewrite H429. simpl.
  destruct rest as [|[e|r2] rest]; simpl.
  - rewrite <- !(assoc_L (++)). repeat split.
  - rewrite <- !(assoc_L (++)). repeat split.
  - destruct (json r2) as [[[[|film provided]|]|]|e]; simpl;
      rewrite <- ?(assoc_L (++)); repeat split.
Qed.

Lemma fetch_movies_retries_once_witness :
  let w := fresh_world
    [Answered (mkResponse 429 (Raise ClientError) (Raise ClientError));
     ok_films [film_no 1; film_no 2]] in
  let run := MovieSearcher.fetch_movies sample_searcher "Venom" w in
  fst run = Ok [film_no 1; film_no 2] /\
  length (filter is_get (trace (snd run))) = 2%nat /\
  filter is_sleep (trace (snd run)) = [Sleep 500].
Proof.
  pose proof (fetch_movies_retries_once sample_searcher "Venom"
    (fresh_world
       [Answered (mkResponse 429 (Raise ClientError) (Raise ClientError));
        ok_films [film_no 1; film_no 2]]) _ _ eq_refl eq_refl) as (Htr & _ & Hres).
  cbv zeta. split; [exact Hres|]. rewrite Htr. split; reflexivity.
Defined.

(** A retry that is refused, and a retry whose body does not parse, make
    the service raise: no sentinel is returned. *)
Lemma fetch_movies_retry_failure_raises :
  fst (MovieSearcher.fetch_movies sample_searcher "Venom"
         (fresh_world
            [Answered (mkResponse 429 (Raise ClientError) (Raise ClientError));
             Refused TimeoutError])) = Raise TimeoutError /\
  fst (MovieSearcher.fetch_movies sample_searcher "Venom"
         (fresh_world
            [Answered (mkResponse 429 (Raise ClientError) (Raise ClientError));
             Answered (mkResponse 429 (Raise ValueError) (Raise ValueError))]))
    = Raise ValueError.
Proof. split; reflexivity. Qed.

(** ** Link resolution *)

(** C6: with [LINK_CAP=0] a film that carries an identifier still gets its
    primary link, one link where the cap allows none; the cap is only
    consulted before the secondary source. *)
Theorem fetch_movie_links_exceeds_zero_cap :
  CinemaBot.cap_from_env (Some "0") 1 = 0 /\
  forall (E : Extern) (w : World),
    MovieSearcher.fetch_movie_links (MovieSearcher.mk "key" 0 3) venom w =
    (Ok ["https://sspoisk.ru/film/42/"], w) /\
    MovieSearcher.links_cap (MovieSearcher.mk "key" 0 3)
      < Py.len ["https://sspoisk.ru/film/42/"].
Proof. split; [reflexivity|]. intros E w. split; reflexivity. Qed.

Section Scan.
Context {E : Extern}.

Lemma parse_skips pre post links movie_title :
  Forall (fun div => qualifies movie_title div = false) pre ->
  MovieSearcher._parse_filmix_response (pre ++ post) links movie_title =
  MovieSearcher._parse_filmix_response post links movie_title.
Proof.
  induction 1 as [|div pre Hdiv _ IH]; [reflexivity|].
  simpl. unfold qualifies in Hdiv.
  destruct (data_id div) as [movie_id|]; [|exact IH].
  destruct (h2_name div) as [heading|].
  - destruct (Py.truthy_str movie_id); simpl in *; [|exact IH].
    rewrite Hdiv. exact IH.
  - destruct (Py.truthy_str movie_id); exact IH.
Qed.

Lemma parse_accepts div post links movie_title :
  qualifies movie_title div = true ->
  exists movie_id,
    data_id div = Some movie_id /\
    MovieSearcher._parse_filmix_response (div :: post) links movie_title =
    links ++ [MovieSearcher.MOVIE_FILMIX_URL +:+ movie_id].
Proof.
  unfold qualifies. simpl.
  destruct (data_id div) as [movie_id|]; [|discriminate].
  destruct (h2_name div) as [heading|]; [|discriminate].
  intros [Hid Hratio]%andb_prop. exists movie_id.
  rewrite Hid, Hratio. split; reflexivity.
Qed.

(** C7: the scan computes the ratio of the lowered, stripped heading of
    each entry against the lowered title, links the first entry whose
    ratio is at least 30 whatever follows it, and adds nothing when no
    entry reaches 30; a ratio of exactly 30 is accepted and 29 is not. *)
Theorem filmix_scan_first_match html links movie_title :
  (forall div,
     qualifies movie_title div = true <->
     exists movie_id heading,
       data_id div = Some movie_id /\ Py.truthy_str movie_id = true /\
       h2_name div = Some heading /\
       30 <= fuzz_ratio (str_lower (str_strip heading)) (str_lower movie_title)) /\
  (forall pre div post,
     html = pre ++ div :: post ->
     Forall (fun entry => qualifies movie_title entry = false) pre ->
     qualifies movie_title div = true ->
     exists movie_id,
       data_id div = Some movie_id /\
       MovieSearcher._parse_filmix_response html links movie_title =
       links ++ [MovieSearcher.MOVIE_FILMIX_URL +:+ movie_id]) /\
  (Forall (fun entry => qualifies movie_title entry = false) html ->
   MovieSearcher._parse_filmix_response html links movie_title = links) /\
  (forall movie_id heading,
     Py.truthy_str movie_id = true ->
     let ratio := fuzz_ratio (str_lower (str_strip heading)) (str_lower movie_title) in
     let entry := mkArticle (Some movie_id) (Some heading) in
     (ratio = 30 ->
      MovieSearcher._parse_filmix_response [entry] links movie_title =
      links ++ [MovieSearcher.MOVIE_FILMIX_URL +:+ movie_id]) /\
     (ratio = 29 ->
      MovieSearcher._parse_filmix_response [entry] links movie_title = links)).
Proof.
  split; [|split; [|split]].
  - intros div. unfold qualifies. split.
    + destruct (data_id div) as [movie_id|]; [|discriminate].
      destruct (h2_name div) as [heading|]; [|discriminate].
      intros [Hid Hratio]%andb_prop. apply Z.leb_le in Hratio. eauto 8.
    + intros (movie_id & heading & -> & Hid & -> & Hratio).
      rewrite Hid. apply Z.leb_le in Hratio. rewrite Hratio. reflexivity.
  - intros pre div post -> Hpre Hdiv. rewrite parse_skips by exact Hpre.
    apply parse_accepts. exact Hdiv.
  - intros Hall. rewrite <- (app_nil_r html). rewrite parse_skips by exact Hall.
    reflexivity.
  - intros movie_id heading Hid ratio entry. subst ratio entry. simpl.
    rewrite Hid. simpl. split; intros ->; reflexivity.
Qed.
End Scan.

Lemma filmix_scan_first_match_witness :
  MovieSearcher._parse_filmix_response (E := sample_extern)
    [mkArticle (Some "x0") (Some "12"); mkArticle (Some "x1") (Some "45");
     mkArticle (Some "x2") (Some "20"); mkArticle (Some "x3") (Some "90")]
    [] "Venom"
  = ["https://filmix.date/play/x1"].
Proof.
  destruct (proj1 (proj2 (filmix_scan_first_match (E := sample_extern)
              [mkArticle (Some "x0") (Some "12"); mkArticle (Some "x1") (Some "45");
               mkArticle (Some "x2") (Some "20"); mkArticle (Some "x3") (Some "90")]
              [] "Venom"))
            [mkArticle (Some "x0") (Some "12")]
            (mkArticle (Some "x1") (Some "45"))
            [mkArticle (Some "x2") (Some "20"); mkArticle (Some "x3") (Some "90")])
    as (movie_id & Hid & Hscan).
  - reflexivity.
  - repeat constructor.
  - reflexivity.
  - injection Hid as <-. exact Hscan.
Defined.

(** C8: the search term and the year bounds sent to the secondary source
    repeat the film's name and never its year: the request is the same
    whatever the year, and for Venom of 2018 it asks for
    [Venom Venom] between the years [Venom] and [Venom]. *)
Theorem filmix_search_ignores_year :
  (forall (E : Extern) self film other_year w,
     MovieSearcher.fetch_movie_links self
       (mkMovie (error film) (filmId film) (nameRu film) (nameEn film) other_year
                (rating film) (description film) (posterUrlPreview film) (serial film)) w
     = MovieSearcher.fetch_movie_links self film w) /\
  forall E : Extern,
    trace (after (MovieSearcher.fetch_movie_links (MovieSearcher.mk "key" 2 3) venom)
                 (fresh_world [Answered (mkResponse 200 (Raise ClientError) (Ok []))]))
    = [Post "https://filmix.date/engine/ajax/sphinx_search.php"
         ("scf=fx&story=Venom Venom&search_start=0&do=search&subaction=search"
          +:+ "&years_ot=Venom&years_do=Venom&kpi_ot=1&kpi_do=10&imdb_ot=1&imdb_do=10"
          +:+ "&sort_name=&undefined=asc&sort_date=&sort_favorite=&simple=1")].
Proof. split; reflexivity. Qed.

(** The scan appends at most one link, after the links it was given. *)
Lemma parse_appends_at_most_one {E : Extern} html links movie_title :
  MovieSearcher._parse_filmix_response html links movie_title = links \/
  exists movie_id,
    MovieSearcher._parse_filmix_response html links movie_title =
    links ++ [MovieSearcher.MOVIE_FILMIX_URL +:+ movie_id].
Proof.
  induction html as [|div rest IH]; simpl; [auto|].
  destruct (data_id div) as [movie_id|]; [|exact IH].
  destruct (Py.truthy_str movie_id); simpl; [|exact IH].
  destruct (h2_name div) as [heading|]; [|exact IH].
  destruct (30 <=? _); [eauto|exact IH].
Qed.

Lemma try_add_filmix_link_shape {E : Extern} links movie_title movie_year w links' :
  fst (MovieSearcher._try_add_filmix_link links movie_title movie_year w) = Ok links' ->
  links' = links \/ exists link, links' = links ++ [link].
Proof.
  cbv [MovieSearcher._try_add_filmix_link MovieSearcher.raise_for_status
       try_except bind request emit lift ret raise]; simpl.
  destruct (net w) as [|[e|r] rest]; simpl.
  - intros [= <-]. auto.
  - destruct e; simpl; try discriminate; intros [= <-]; auto.
  - destruct (400 <=? status r); simpl; [intros [= <-]; auto|].
    destruct (text r) as [html|e]; simpl.
    + intros [= <-].
      destruct (parse_appends_at_most_one html links movie_title) as [->|[x ->]]; eauto.
    + destruct e; simpl; try discriminate; intros [= <-]; auto.
Qed.

(** X19: for a cap of at least 1 the resolver stays within the cap, and a
    film with a non-zero identifier gets its synthesized primary link
    first. *)
Lemma fetch_movie_links_within_cap {E : Extern} self film w links :
  1 <= MovieSearcher.links_cap self ->
  fst (MovieSearcher.fetch_movie_links self film w) = Ok links ->
  Py.len links <= MovieSearcher.links_cap self /\
  forall id, filmId film = Some id -> id <> 0 ->
    head links =
    Some (MovieSearcher.BASE_SSPOISK_URL
          +:+ (if default false (serial film) then "series" else "film")
          +:+ "/" +:+ Py.fmt_int id +:+ "/").
Proof.
  intros Hcap. unfold MovieSearcher.fetch_movie_links. cbv zeta.
  pose (primary := fun id : Z =>
    MovieSearcher.BASE_SSPOISK_URL
    +:+ (if default false (serial film) then "series" else "film")
    +:+ "/" +:+ Py.fmt_int id +:+ "/").
  set (links0 := match filmId film with Some id => _ | None => _ end).
  assert (Hshape : links0 = [] /\ (forall id, filmId film = Some id -> id = 0) \/
                   exists id, filmId film = Some id /\ id <> 0 /\ links0 = [primary id]).
  { subst links0. destruct (filmId film) as [id|]; [|left; split; [reflexivity|discriminate]].
    unfold Py.truthy_int. destruct (Z.eqb_spec id 0) as [->|Hid]; simpl.
    - left. split; [reflexivity|]. intros ? [= <-]. reflexivity.
    - right. exists id. auto. }
  clearbody links0.
  destruct (Z.ltb_spec (Py.len links0) (MovieSearcher.links_cap self)) as [Hlt|Hge].
  - intros Hres. apply try_add_filmix_link_shape in Hres.
    destruct Hshape as [[-> Hz]|(id & Hfilm & Hid & ->)].
    + split; [destruct Hres as [->|[x ->]]; unfold Py.len; simpl; lia|].
      intros id Hfilm Hid. apply Hz in Hfilm. contradiction.
    + split; [destruct Hres as [->|[x ->]]; unfold Py.len in *; simpl in *; lia|].
      intros id' Hfilm' _. rewrite Hfilm in Hfilm'. injection Hfilm' as <-.
      destruct Hres as [->|[x ->]]; reflexivity.
  - intros [= <-].
    destruct Hshape as [[-> Hz]|(id & Hfilm & Hid & ->)].
    + unfold Py.len in Hge. simpl in Hge. lia.
    + split; [unfold Py.len in *; simpl in *; lia|].
      intros id' Hfilm' _. rewrite Hfilm in Hfilm'. injection Hfilm' as <-. reflexivity.
Qed.


(** ** Statistics *)

Section Grouping.
Import Db.

Lemma tally_bump k k' groups :
  tally k' (bump k groups) =
  if decide (k' = k) then S (tally k groups) else tally k' groups.
Proof.
  induction groups as [|[k0 c] rest IH]; simpl.
  - destruct (decide (k' = k)); reflexivity.
  - destruct (decide (k = k0)) as [->|Hne]; simpl.
    + destruct (decide (k' = k0)); reflexivity.
    + rewrite IH. destruct (decide (k' = k0)) as [->|]; [|reflexivity].
      destruct (decide (k0 = k)); [congruence|reflexivity].
Qed.

Lemma keys_bump k k' groups :
  k' ∈ (bump k groups).*1 <-> k' = k \/ k' ∈ groups.*1.
Proof.
  induction groups as [|[k0 c] rest IH]; cbn [bump].
  - rewrite fmap_cons, list_elem_of_singleton. simpl.
    split; [auto|]. intros [?|H]; [assumption|inversion H].
  - destruct (decide (k = k0)) as [->|Hne]; rewrite !fmap_cons, !elem_of_cons; simpl.
    + tauto.
    + rewrite IH. tauto.
Qed.

Lemma NoDup_bump k groups : NoDup groups.*1 -> NoDup (bump k groups).*1.
Proof.
  induction groups as [|[k0 c] rest IH]; cbn [bump]; intros Hnd.
  - apply NoDup_singleton.
  - rewrite fmap_cons in Hnd. apply NoDup_cons in Hnd as [Hk0 Hnd].
    destruct (decide (k = k0)) as [->|Hne]; rewrite fmap_cons; simpl;
      apply NoDup_cons; split; auto.
    rewrite keys_bump. intros [?|?]; [congruence|contradiction].
Qed.

Lemma elem_tally k c groups :
  NoDup groups.*1 -> ((k, c) ∈ groups <-> k ∈ groups.*1 /\ tally k groups = c).
Proof.
  induction groups as [|[k0 c0] rest IH]; simpl; intros Hnd.
  - split; [intros H; inversion H|intros [H _]; inversion H].
  - apply NoDup_cons in Hnd as [Hk0 Hnd]. specialize (IH Hnd).
    rewrite !elem_of_cons, IH.
    destruct (decide (k = k0)) as [->|Hne]; split.
    + intros [[= ->]|[Hin _]]; [auto|contradiction].
    + intros [_ ->]. left. reflexivity.
    + intros [[= -> _]|[Hin Ht]]; [contradiction|auto].
    + intros [[?|Hin] Ht]; [contradiction|auto].
Qed.

Lemma group_by_count_snoc rows r :
  group_by_count (rows ++ [r]) = bump (key_of r) (group_by_count rows).
Proof. unfold group_by_count. rewrite fold_left_app. reflexivity. Qed.

Lemma group_by_count_spec rows :
  let groups := group_by_count rows in
  NoDup groups.*1 /\
  (forall k, k ∈ groups.*1 <-> k ∈ key_of <$> rows) /\
  (forall k, tally k groups = length (filter (fun r => key_of r = k) rows)).
Proof.
  induction rows as [|r rows IH] using rev_ind.
  - split; [constructor|]. split; reflexivity.
  - destruct IH as (Hnd & Hkeys & Htally). cbv zeta.
    rewrite group_by_count_snoc. split; [apply NoDup_bump; exact Hnd|]. split.
    + intros k. rewrite keys_bump, fmap_app, elem_of_app, Hkeys. simpl.
      rewrite list_elem_of_singleton. tauto.
    + intros k. rewrite tally_bump, !Htally, filter_app, length_app.
      destruct (decide (k = key_of r)) as [->|Hne].
      * rewrite filter_cons_True, filter_nil by reflexivity. simpl. lia.
      * rewrite filter_cons_False, filter_nil by congruence. simpl. lia.
Qed.

Lemma insert_desc_perm g sorted : insert_desc g sorted ≡ₚ g :: sorted.
Proof.
  induction sorted as [|h rest IH]; simpl; [reflexivity|].
  destruct (snd g <? snd h)%nat; [|reflexivity].
  rewrite IH. apply Permutation_swap.
Qed.

Lemma order_by_count_desc_perm groups : order_by_count_desc groups ≡ₚ groups.
Proof.
  induction groups as [|g groups IH]; simpl; [reflexivity|].
  rewrite insert_desc_perm, IH. reflexivity.
Qed.

Lemma insert_desc_sorted g sorted :
  Sorted by_count_desc sorted -> Sorted by_count_desc (insert_desc g sorted).
Proof.
  induction 1 as [|h rest Hsorted IH Hhd]; simpl; [repeat constructor|].
  destruct (Nat.ltb_spec (snd g) (snd h)) as [Hlt|Hge].
  - constructor; [exact IH|].
    destruct Hhd as [|h' rest' Hh']; simpl.
    + repeat constructor. unfold by_count_desc. lia.
    + destruct (snd g <? snd h')%nat; constructor; [exact Hh'|].
      unfold by_count_desc. lia.
  - constructor; [constructor; assumption|]. constructor. exact Hge.
Qed.

Lemma order_by_count_desc_sorted groups :
  Sorted by_count_desc (order_by_count_desc groups).
Proof.
  induction groups as [|g groups IH]; simpl; [constructor|].
  apply insert_desc_sorted. exact IH.
Qed.

(** C9: every statistics row has a non-null name, stands for one pair of
    name and year, and counts the user's records with that pair; every
    record of the user with a name falls in some row; no pair has two
    rows; the rows come in descending order of count. *)
Theorem get_user_stats_groups_and_ranks session telegram_id :
  let result := get_user_stats session telegram_id in
  (forall k c, (k, c) ∈ result ->
     fst k <> None /\ c = length (rows_of session telegram_id k) /\ (0 < c)%nat) /\
  (forall r, r ∈ search_history session -> user_id r = telegram_id ->
     film_name r <> None -> exists c, (key_of r, c) ∈ result) /\
  NoDup result.*1 /\
  Sorted (fun a b => (snd b <= snd a)%nat) result.
Proof.
  intros result. subst result. unfold get_user_stats.
  set (selected := filter _ (search_history session)).
  destruct (group_by_count_spec selected) as (Hnd & Hkeys & Htally).
  pose proof (order_by_count_desc_perm (group_by_count selected)) as Hperm.
  assert (Hsel : forall r, r ∈ selected <->
            r ∈ search_history session /\ user_id r = telegram_id /\ film_name r <> None).
  { intros r. subst selected. rewrite list_elem_of_filter. tauto. }
  assert (Hrows : forall k, fst k <> None ->
            filter (fun r => key_of r = k) selected = rows_of session telegram_id k).
  { intros k Hk. subst selected. unfold rows_of. rewrite list_filter_filter.
    apply list_filter_iff. intros r. unfold key_of. split.
    - intros (Hkey & Hu & _). auto.
    - intros (Hu & Hkey). repeat split; auto. subst k. exact Hk. }
  split; [|split; [|split]].
  - intros k c Hin. rewrite Hperm in Hin.
    apply elem_tally in Hin as [Hk <-]; [|exact Hnd].
    apply Hkeys in Hk. apply list_elem_of_fmap in Hk as (r & -> & Hr).
    assert (Hname : fst (key_of r) <> None) by (apply Hsel in Hr; apply Hr).
    split; [exact Hname|]. rewrite Htally, Hrows by exact Hname.
    split; [reflexivity|].
    rewrite <- Hrows by exact Hname.
    assert (Hmem : r ∈ filter (fun r' => key_of r' = key_of r) selected)
      by (apply list_elem_of_filter; auto).
    destruct (filter _ selected); [inversion Hmem|simpl; lia].
  - intros r Hr Hu Hname. exists (tally (key_of r) (group_by_count selected)).
    rewrite Hperm. apply elem_tally; [exact Hnd|]. split; [|reflexivity].
    apply Hkeys, list_elem_of_fmap. exists r. split; [reflexivity|].
    apply Hsel. auto.
  - rewrite Hperm. exact Hnd.
  - apply order_by_count_desc_sorted.
Qed.
End Grouping.

(** ** History writes of a search *)

(** C10: a search for which the provider has no film records nothing.
    The lookup returns the sentinel, [get_film_caption] returns its bare
    text, and unpacking that text into caption, name and year raises
    [ValueError] in [show_search_page], before the history write of the
    renderer and before the one of the handler. *)
Theorem search_without_result_records_nothing :
  forall (E : Extern) searcher user_id message_text w body,
    let asked :=
      mkWorld (fsm w) (db w)
        [Answered (mkResponse 200 (Ok (JDict (Some []))) body)] (trace w) in
    let run := CinemaBot.movie_search_handler searcher user_id message_text asked in
    fst run = Raise ValueError /\
    db (snd run) = db w /\
    film_info (fsm (snd run)) = Some [error_movie "Фильм не найден!"].
Proof. intros E searcher user_id message_text w body. repeat split. Qed.

(** With films found, the search writes twice and each navigation event
    writes once more, for the same query. *)
Example search_with_result_records_twice :
  let searched :=
    after (CinemaBot.movie_search_handler (E := sample_extern) sample_searcher 7 "Venom")
          (fresh_world [ok_films [venom; film_no 2]]) in
  Db.search_history (db searched) =
    [Db.mkSearch 7 "Venom" (Some "Venom") (Some "2018");
     Db.mkSearch 7 "Venom" None None] /\
  Db.search_history
    (db (after (CinemaBot.search_next_page (E := sample_extern) sample_searcher 7) searched)) =
    [Db.mkSearch 7 "Venom" (Some "Venom") (Some "2018");
     Db.mkSearch 7 "Venom" None None;
     Db.mkSearch 7 "Venom" (Some "Interstellar") (Some "2014")].
Proof. split; reflexivity. Qed.

(** ** The search history table *)

Section Recording.
Import Db.

Lemma record_all_snoc searches r session :
  record_all (searches ++ [r]) session =
  add_search (record_all searches session) (user_id r) (query r) (film_name r) (film_year r).
Proof. unfold record_all. rewrite fold_left_app. reflexivity. Qed.

(** X1: recording searches one by one from the empty database leaves a
    table that holds exactly the recorded rows in the order they came,
    and a user list without repetition that holds exactly the users who
    searched. *)
Theorem record_all_keeps_integrity (searches : list SearchHistory) :
  let session := record_all searches Db.empty in
  search_history session = searches /\
  NoDup (users session) /\
  (forall u, u ∈ users session <-> exists r, r ∈ searches /\ user_id r = u).
Proof.
  induction searches as [|r searches IH] using rev_ind.
  - split; [reflexivity|]. split; [constructor|].
    intros u. split; [intros H; inversion H|intros (r & H & _); inversion H].
  - cbv zeta in *. destruct IH as (Hrows & Hnd & Husers).
    rewrite record_all_snoc. unfold add_search. simpl. rewrite Hrows.
    split; [destruct r; reflexivity|].
    destruct (bool_decide_reflect (user_id r ∈ users (record_all searches Db.empty)))
      as [Hin|Hnin].
    + split; [exact Hnd|]. intros u. rewrite Husers. split.
      * intros (r' & Hr' & Hu). exists r'. split; [apply elem_of_app; auto|exact Hu].
      * intros (r' & [Hr'|Hr']%elem_of_app & Hu); [eauto|].
        apply list_elem_of_singleton in Hr'. subst r' u. apply Husers. exact Hin.
    + split.
      * apply NoDup_app. split; [exact Hnd|]. split; [|apply NoDup_singleton].
        intros u Hu Hu'. apply list_elem_of_singleton in Hu'. subst u. contradiction.
      * intros u. rewrite elem_of_app, list_elem_of_singleton, Husers. split.
        -- intros [(r' & Hr' & Hu)| ->].
           ++ exists r'. split; [apply elem_of_app; auto|exact Hu].
           ++ exists r. split; [apply elem_of_app; right; left|reflexivity].
        -- intros (r' & [Hr'|Hr']%elem_of_app & Hu); [eauto|].
           apply list_elem_of_singleton in Hr'. subst r'. auto.
Qed.

(** X2: the history of a user holds exactly the user's rows; a search
    just recorded comes first in the history of the user who made it, and
    the history of any other user is as it was. *)
Theorem get_user_history_after_add_search session telegram_id q name yr :
  (forall r u, r ∈ get_user_history session u None <->
               r ∈ search_history session /\ user_id r = u) /\
  get_user_history (add_search session telegram_id q name yr) telegram_id None =
    mkSearch telegram_id q name yr :: get_user_history session telegram_id None /\
  (forall other, other <> telegram_id ->
     get_user_history (add_search session telegram_id q name yr) other None =
     get_user_history session other None).
Proof.
  unfold get_user_history, add_search. simpl. split; [|split].
  - intros r u. rewrite list_elem_of_In, <- in_rev, <- list_elem_of_In, list_elem_of_filter. tauto.
  - rewrite filter_app, filter_cons_True, filter_nil by reflexivity.
    rewrite rev_app_distr. reflexivity.
  - intros other Hother.
    rewrite filter_app, filter_cons_False, filter_nil by (simpl; congruence).
    rewrite app_nil_r. reflexivity.
Qed.

Lemma selected_after_add_search session telegram_id q name yr u :
  filter (fun r => user_id r = u /\ film_name r <> None)
         (search_history (add_search session telegram_id q name yr)) =
  filter (fun r => user_id r = u /\ film_name r <> None) (search_history session)
  ++ (if decide (telegram_id = u /\ name <> None)
      then [mkSearch telegram_id q name yr] else []).
Proof.
  unfold add_search. simpl. rewrite filter_app. reflexivity.
Qed.

(** X3: a search that resolved to no film, and a search of another user,
    leave the statistics of a user as they were. *)
Theorem get_user_stats_ignores session telegram_id q name yr u :
  name = None \/ telegram_id <> u ->
  get_user_stats (add_search session telegram_id q name yr) u = get_user_stats session u.
Proof.
  intros Hskip. unfold get_user_stats. rewrite selected_after_add_search.
  destruct (decide (telegram_id = u /\ name <> None)) as [[Hu Hname]|_].
  - destruct Hskip; contradiction.
  - rewrite app_nil_r. reflexivity.
Qed.

Lemma get_user_stats_elem session u k c :
  (k, c) ∈ get_user_stats session u <->
  fst k <> None /\ c = length (rows_of session u k) /\ (0 < c)%nat.
Proof.
  unfold get_user_stats.
  set (selected := filter _ (search_history session)).
  destruct (group_by_count_spec selected) as (Hnd & Hkeys & Htally).
  rewrite (order_by_count_desc_perm (group_by_count selected)).
  assert (Hsel : forall r, r ∈ selected <->
            r ∈ search_history session /\ user_id r = u /\ film_name r <> None).
  { intros r. subst selected. rewrite list_elem_of_filter. tauto. }
  assert (Hrows : forall k', fst k' <> None ->
            filter (fun r => key_of r = k') selected = rows_of session u k').
  { intros k' Hk'. subst selected. unfold rows_of. rewrite list_filter_filter.
    apply list_filter_iff. intros r. unfold key_of. split.
    - intros (Hkey & Hu & _). auto.
    - intros (Hu & Hkey). repeat split; auto. subst k'. exact Hk'. }
  rewrite (elem_tally k c _ Hnd), Hkeys, Htally. split.
  - intros [Hk <-]. apply list_elem_of_fmap in Hk as (r & -> & Hr).
    assert (Hname : fst (key_of r) <> None) by (apply Hsel in Hr; apply Hr).
    split; [exact Hname|]. rewrite Hrows by exact Hname. split; [reflexivity|].
    rewrite <- Hrows by exact Hname.
    assert (Hmem : r ∈ filter (fun r' => key_of r' = key_of r) selected)
      by (apply list_elem_of_filter; auto).
    destruct (filter _ selected); [inversion Hmem|simpl; lia].
  - intros (Hname & -> & Hpos). rewrite Hrows by exact Hname. split; [|reflexivity].
    destruct (rows_of session u k) as [|r rs] eqn:Hr; [simpl in Hpos; lia|].
    assert (Hin : r ∈ rows_of session u k) by (rewrite Hr; left).
    unfold rows_of in Hin. apply list_elem_of_filter in Hin as [[Hu Hkey] Hin].
    apply list_elem_of_fmap. exists r. split; [congruence|].
    apply Hsel. repeat split; auto. unfold key_of in Hkey. subst k. exact Hname.
Qed.

Lemma rows_of_after_add_search session u q name yr k :
  rows_of (add_search session u q name yr) u k =
  rows_of session u k ++ (if decide (k = (name, yr)) then [mkSearch u q name yr] else []).
Proof.
  unfold rows_of, add_search. simpl. rewrite filter_app. f_equal.
  destruct (decide (k = (name, yr))) as [->|Hk].
  - rewrite filter_cons_True, filter_nil by (split; reflexivity). reflexivity.
  - rewrite filter_cons_False, filter_nil; [reflexivity|].
    unfold key_of. simpl. intros [_ Heq]. congruence.
Qed.

(** X4: a search that resolved to a film raises the count of that film
    and year by one for the user who searched (starting at one), and
    leaves every other row of the user's statistics as it was. *)
Theorem get_user_stats_counts_search session u q name yr k c :
  (k, c) ∈ get_user_stats (add_search session u q (Some name) yr) u <->
  k = (Some name, yr) /\ c = S (length (rows_of session u k)) \/
  k <> (Some name, yr) /\ (k, c) ∈ get_user_stats session u.
Proof.
  rewrite !get_user_stats_elem, rows_of_after_add_search.
  destruct (decide (k = (Some name, yr))) as [->|Hk].
  - rewrite decide_True, length_app by reflexivity. simpl. split.
    + intros (_ & -> & _). left. split; [reflexivity|lia].
    + intros [[_ ->]|[Hne _]]; [|contradiction].
      split; [discriminate|]. split; lia.
  - rewrite decide_False, app_nil_r by exact Hk. split.
    + intros H. right. split; [exact Hk|exact H].
    + intros [[Heq _]|[_ H]]; [contradiction|exact H].
Qed.

Lemma sum_bump k groups :
  sum_list (bump k groups).*2 = S (sum_list groups.*2).
Proof.
  induction groups as [|[k0 c] rest IH]; cbn [bump]; [reflexivity|].
  destruct (decide (k = k0)); rewrite !fmap_cons; simpl; [reflexivity|].
  rewrite IH. lia.
Qed.

Lemma sum_group_by_count rows :
  sum_list (group_by_count rows).*2 = length rows.
Proof.
  induction rows as [|r rows IH] using rev_ind; [reflexivity|].
  rewrite group_by_count_snoc, sum_bump, IH, length_app. simpl. lia.
Qed.

(** X5: the counts of a user's statistics add up to the number of the
    user's records that carry a film name. *)
Theorem get_user_stats_total session u :
  sum_list (get_user_stats session u).*2 =
  length (filter (fun r => user_id r = u /\ film_name r <> None) (search_history session)).
Proof.
  unfold get_user_stats.
  rewrite (order_by_count_desc_perm (group_by_count _)).
  apply sum_group_by_count.
Qed.
End Recording.

Lemma get_user_stats_ignores_witness :
  Db.get_user_stats (Db.add_search (db long_history) 7 "zzzz" None None) 7 =
  Db.get_user_stats (db long_history) 7.
Proof.
  apply (get_user_stats_ignores (db long_history) 7 "zzzz" None None 7).
  left. reflexivity.
Defined.

(** ** The listings of history and statistics *)

Ltac run_listing :=
  cbv [CinemaBot.show_history_page CinemaBot.show_stats_page
       CinemaBot.history_prev_page CinemaBot.history_next_page
       CinemaBot.stats_prev_page CinemaBot.stats_next_page
       CinemaBot.command_history_handler CinemaBot.command_stats_handler
       bind get_data read_session update_data_page set_state emit after only_sent];
  cbn [fsm db net trace state page query film_info fst snd].

(** X6: rendering history or statistics, and turning their pages, always
    returns, sends exactly one message (an edit for a callback), and
    touches neither the database nor the outstanding answers nor the
    query and films kept from a search. *)
Theorem listings_only_send (user_id : Z) (w : World) :
  (forall is_callback,
     fst (CinemaBot.show_history_page is_callback user_id w) = Ok tt /\
     only_sent is_callback w (after (CinemaBot.show_history_page is_callback user_id) w)) /\
  (forall is_callback,
     fst (CinemaBot.show_stats_page is_callback user_id w) = Ok tt /\
     only_sent is_callback w (after (CinemaBot.show_stats_page is_callback user_id) w)) /\
  (fst (CinemaBot.history_prev_page user_id w) = Ok tt /\
   only_sent true w (after (CinemaBot.history_prev_page user_id) w)) /\
  (fst (CinemaBot.history_next_page user_id w) = Ok tt /\
   only_sent true w (after (CinemaBot.history_next_page user_id) w)) /\
  (fst (CinemaBot.stats_prev_page user_id w) = Ok tt /\
   only_sent true w (after (CinemaBot.stats_prev_page user_id) w)) /\
  (fst (CinemaBot.stats_next_page user_id w) = Ok tt /\
   only_sent true w (after (CinemaBot.stats_next_page user_id) w)).
Proof.
  repeat split; run_listing;
    try (destruct (Db.get_user_history (db w) user_id None));
    try (destruct (Db.get_user_stats (db w) user_id));
    try reflexivity; eexists; split; reflexivity.
Qed.

Lemma slice_page {A} (l : list A) (p : Z) :
  0 <= p -> 20 * p < Py.len l ->
  Py.slice l (p * 20) (Z.min (p * 20 + 20) (Py.len l)) =
    take 20 (drop (Z.to_nat (20 * p)) l) /\
  1 <= Py.len (take 20 (drop (Z.to_nat (20 * p)) l)) <= 20 /\
  20 * p + Py.len (take 20 (drop (Z.to_nat (20 * p)) l)) = Z.min (20 * (p + 1)) (Py.len l).
Proof.
  unfold Py.slice, Py.len. intros Hp Hlt.
  replace (p * 20) with (20 * p) by lia.
  split.
  - destruct (Z.le_gt_cases (20 * p + 20) (Z.of_nat (length l))) as [Hfull|Hlast].
    + rewrite Z.min_l by lia. rewrite take_drop_commute. do 2 f_equal. lia.
    + rewrite Z.min_r, Nat2Z.id by lia. rewrite firstn_all.
      symmetry. apply take_ge. rewrite length_drop. lia.
  - rewrite length_take, length_drop. lia.
Qed.

Section Listings.
Context {E : Extern} (searcher : MovieSearcher.t).

(** X7: with nothing to list, the history and the statistics answer with
    a fixed text and no controls, and leave the FSM data, the page
    included, the database and the outstanding answers alone. *)
Theorem empty_listing_sends_text kind is_callback user_id w :
  kind <> search ->
  dataset_size kind user_id w = 0 ->
  exists message,
    CinemaBot.show_page searcher kind is_callback user_id w =
    (Ok tt,
     mkWorld (fsm w) (db w) (net w)
       (trace w ++ [Send (mkOutgoing is_callback (PlainText message) None)])).
Proof.
  intros Hkind Hempty. destruct kind; [| |contradiction];
    unfold dataset_size, Py.len in Hempty; cbn [CinemaBot.show_page]; run_listing.
  - destruct (Db.get_user_history (db w) user_id None); [|simpl in Hempty; lia].
    eexists. reflexivity.
  - destruct (Db.get_user_stats (db w) user_id); [|simpl in Hempty; lia].
    eexists. reflexivity.
Qed.

(** X8: over a non-empty dataset a page of history or statistics lists
    the twenty items from position [20 * page] on, or the items left on
    the last page: at least one and at most twenty, numbered from
    [20 * page + 1]. *)
Theorem listing_page_contents kind is_callback user_id w :
  kind <> search ->
  0 < dataset_size kind user_id w ->
  let total := total_pages kind user_id w in
  let p := clamp (stored_page w) total in
  exists m,
    trace (after (CinemaBot.show_page searcher kind is_callback user_id) w)
      = trace w ++ [Send m] /\
    match kind with
    | history =>
        content m = HistoryPage p total (20 * p)
          (take 20 (drop (Z.to_nat (20 * p)) (Db.get_user_history (db w) user_id None)))
    | stats =>
        content m = StatsPage p total (20 * p)
          (take 20 (drop (Z.to_nat (20 * p)) (Db.get_user_stats (db w) user_id)))
    | search => False
    end /\
    1 <= item_count (content m) <= 20 /\
    20 * p + item_count (content m) = Z.min (20 * (p + 1)) (dataset_size kind user_id w).
Proof.
  intros Hkind Hn total p.
  destruct (total_pages_ceiling kind user_id w Hn) as [Hceil Hpos].
  assert (Hp : 0 <= p /\ 20 * p < dataset_size kind user_id w).
  { subst p total. unfold clamp. destruct kind; [| |contradiction]; cbn [page_size] in Hceil; lia. }
  subst p total. unfold total_pages, dataset_size, clamp, stored_page in *.
  destruct kind; [| |contradiction]; cbn [CinemaBot.show_page page_size] in *; run_listing.
  - destruct (Db.get_user_history (db w) user_id None) as [|r rs] eqn:Hd;
      [inversion Hn|].
    destruct (slice_page (r :: rs) _ (proj1 Hp) (proj2 Hp)) as (Hslice & Hlen & Hend).
    eexists. split; [reflexivity|]. cbn [content item_count].
    rewrite Hslice. split; [f_equal; lia|]. split; [exact Hlen|exact Hend].
  - destruct (Db.get_user_stats (db w) user_id) as [|r rs] eqn:Hd;
      [inversion Hn|].
    destruct (slice_page (r :: rs) _ (proj1 Hp) (proj2 Hp)) as (Hslice & Hlen & Hend).
    eexists. split; [reflexivity|]. cbn [content item_count].
    rewrite Hslice. split; [f_equal; lia|]. split; [exact Hlen|exact Hend].
Qed.
End Listings.

Section Turning.
Context {E : Extern} (searcher : MovieSearcher.t).

Lemma turned_in_range kind user_id w move :
  0 < dataset_size kind user_id w ->
  let w' := after (CinemaBot.show_page searcher kind true user_id)
                  (after (update_data_page move) w) in
  stored_page w' = clamp move (total_pages kind user_id w) /\
  dataset_size kind user_id w' = dataset_size kind user_id w /\
  total_pages kind user_id w' = total_pages kind user_id w.
Proof.
  intros Hn w'. destruct (turned_page searcher kind user_id w move Hn) as [Hp Hd].
  fold w' in Hp, Hd. unfold stored_page. rewrite Hp. split; [reflexivity|].
  split; [exact Hd|]. apply total_pages_same. exact Hd.
Qed.

(** X9: over a non-empty dataset and from a page in range, [k] presses
    of next stop at the last page and [k] presses of previous stop at the
    first: the stored page is [min (page + k) (total_pages - 1)],
    respectively [max (page - k) 0]. *)
Theorem repeated_turns_saturate kind user_id w (k : nat) :
  0 < dataset_size kind user_id w ->
  0 <= stored_page w < total_pages kind user_id w ->
  stored_page (Nat.iter k (after (CinemaBot.next_page searcher kind user_id)) w)
    = Z.min (stored_page w + Z.of_nat k) (total_pages kind user_id w - 1) /\
  stored_page (Nat.iter k (after (CinemaBot.prev_page searcher kind user_id)) w)
    = Z.max (stored_page w - Z.of_nat k) 0.
Proof.
  intros Hn Hrange.
  assert (Hnext : forall k,
    let w' := Nat.iter k (after (CinemaBot.next_page searcher kind user_id)) w in
    stored_page w' = Z.min (stored_page w + Z.of_nat k) (total_pages kind user_id w - 1) /\
    dataset_size kind user_id w' = dataset_size kind user_id w /\
    total_pages kind user_id w' = total_pages kind user_id w).
  { clear k. induction k as [|k IH]; cbv zeta.
    - cbn. split; [lia|split; reflexivity].
    - cbv zeta in *. destruct IH as (Hp & Hd & Ht). rewrite Nat.iter_succ.
      rewrite after_next_page.
      destruct (turned_in_range kind user_id _ (stored_page
        (Nat.iter k (after (CinemaBot.next_page searcher kind user_id)) w) + 1)
        ltac:(rewrite Hd; exact Hn)) as (Hp' & Hd' & Ht').
      rewrite Hp', Hd', Ht', Hd, Ht, Hp. split; [unfold clamp; lia|split; reflexivity]. }
  assert (Hprev : forall k,
    let w' := Nat.iter k (after (CinemaBot.prev_page searcher kind user_id)) w in
    stored_page w' = Z.max (stored_page w - Z.of_nat k) 0 /\
    dataset_size kind user_id w' = dataset_size kind user_id w /\
    total_pages kind user_id w' = total_pages kind user_id w).
  { clear k Hnext. induction k as [|k IH]; cbv zeta.
    - cbn. split; [lia|split; reflexivity].
    - cbv zeta in *. destruct IH as (Hp & Hd & Ht). rewrite Nat.iter_succ.
      rewrite after_prev_page.
      destruct (turned_in_range kind user_id _ (Z.max 0 (stored_page
        (Nat.iter k (after (CinemaBot.prev_page searcher kind user_id)) w) - 1))
        ltac:(rewrite Hd; exact Hn)) as (Hp' & Hd' & Ht').
      rewrite Hp', Hd', Ht', Hd, Ht, Hp. split; [unfold clamp; lia|split; reflexivity]. }
  split; [apply Hnext|apply Hprev].
Qed.
End Turning.

(** X10: the history and statistics commands always return, enter their
    state with page 0 stored, write nothing to the database, and keep the
    query and the films of an earlier search in the FSM data. *)
Theorem listing_commands_start_at_page_0 (user_id : Z) (w : World) :
  (fst (CinemaBot.command_history_handler user_id w) = Ok tt /\
   fsm (after (CinemaBot.command_history_handler user_id) w) =
     mkFSM (Some history) (Some 0) (query (fsm w)) (film_info (fsm w)) /\
   db (after (CinemaBot.command_history_handler user_id) w) = db w) /\
  (fst (CinemaBot.command_stats_handler user_id w) = Ok tt /\
   fsm (after (CinemaBot.command_stats_handler user_id) w) =
     mkFSM (Some stats) (Some 0) (query (fsm w)) (film_info (fsm w)) /\
   db (after (CinemaBot.command_stats_handler user_id) w) = db w).
Proof.
  split; run_listing.
  - destruct (Db.get_user_history (db w) user_id None) as [|r rs] eqn:Hd;
      cbn [fsm db net trace state page query film_info fst snd]; repeat split.
    do 2 f_equal.
    assert (1 <= (Py.len (r :: rs) + 20 - 1) / 20)
      by (apply Z.div_le_lower_bound; unfold Py.len; simpl length; lia).
    simpl default. lia.
  - destruct (Db.get_user_stats (db w) user_id) as [|r rs] eqn:Hd;
      cbn [fsm db net trace state page query film_info fst snd]; repeat split.
    do 2 f_equal.
    assert (1 <= (Py.len (r :: rs) + 20 - 1) / 20)
      by (apply Z.div_le_lower_bound; unfold Py.len; simpl length; lia).
    simpl default. lia.
Qed.

Lemma empty_listing_sends_text_witness :
  exists message,
    CinemaBot.show_page (E := sample_extern) sample_searcher history false 7 (fresh_world []) =
    (Ok tt,
     mkWorld (fsm (fresh_world [])) (db (fresh_world [])) (net (fresh_world []))
       (trace (fresh_world []) ++ [Send (mkOutgoing false (PlainText message) None)])).
Proof.
  apply (empty_listing_sends_text (E := sample_extern) sample_searcher
           history false 7 (fresh_world [])).
  - discriminate.
  - reflexivity.
Defined.

Lemma listing_page_contents_witness :
  exists m,
    trace (after (CinemaBot.show_page (E := sample_extern) sample_searcher
                    history true 7) long_history) = [Send m] /\
    item_count (content m) = 5.
Proof.
  destruct (listing_page_contents (E := sample_extern) sample_searcher
              history true 7 long_history ltac:(discriminate) eq_refl)
    as (m & Htrace & _ & _ & Hcount).
  exists m. split; [exact Htrace|]. exact (Z.add_reg_l 40 _ 5 Hcount).
Defined.

Lemma repeated_turns_saturate_witness :
  stored_page (Nat.iter 5 (after (CinemaBot.next_page (E := sample_extern)
                                    sample_searcher search 7)) three_films) = 2 /\
  stored_page (Nat.iter 5 (after (CinemaBot.prev_page (E := sample_extern)
                                    sample_searcher search 7)) three_films) = 0.
Proof.
  apply (repeated_turns_saturate (E := sample_extern) sample_searcher
           search 7 three_films 5 eq_refl).
  split; [discriminate|reflexivity].
Defined.

(** ** The lookup and the resolver, beyond the cap *)

(** X11: a lookup sends one request, and a second one exactly when the
    first answer has status 429, in which case it sleeps once before; it
    leaves the FSM data and the database alone. *)
Theorem fetch_movies_request_budget self query w :
  let run := MovieSearcher.fetch_movies self query w in
  let retried :=
    match net w with
    | Answered r :: _ => status r =? 429
    | _ => false
    end in
  fsm (snd run) = fsm w /\ db (snd run) = db w /\
  exists evs,
    trace (snd run) = trace w ++ evs /\
    length (filter is_get evs) = (if retried then 2 else 1)%nat /\
    length (filter is_sleep evs) = (if retried then 1 else 0)%nat.
Proof.
  run_fetch_movies.
  destruct (net w) as [|[e|r] rest]; simpl.
  - repeat split. rewrite <- (assoc_L (++)). eexists. split; [reflexivity|]. split; reflexivity.
  - repeat split. rewrite <- (assoc_L (++)). eexists. split; [reflexivity|]. split; reflexivity.
  - destruct (status r =? 429); simpl.
    + destruct rest as [|[e|r2] rest]; simpl;
        [| |destruct (json r2) as [[[[|film provided]|]|]|e]; simpl];
        repeat split; rewrite <- ?(assoc_L (++));
        eexists; (split; [reflexivity|]); split; reflexivity.
    + destruct ((status r =? 401) || (status r =? 403)); simpl;
        [|destruct (negb (status r =? 200)); simpl;
          [|destruct (json r) as [[[[|film provided]|]|]|e]; simpl]];
        repeat split; rewrite <- ?(assoc_L (++));
        try (rewrite <- (app_nil_r (trace w ++ [Get _ _])), <- (assoc_L (++)));
        eexists; (split; [reflexivity|]); split; reflexivity.
Qed.

(** X12: with a cap of at least 1 a lookup that returns never returns
    the empty list, and when it raises, the last thing it did was to log
    the failure. *)
Theorem fetch_movies_returns_or_logs self query w :
  1 <= MovieSearcher.movie_cap self ->
  let run := MovieSearcher.fetch_movies self query w in
  match fst run with
  | Ok films => films <> []
  | Raise _ => last (trace (snd run)) = Some (Log "Error during movie info fetch.")
  end.
Proof.
  intros Hcap run. subst run.
  destruct (fst (MovieSearcher.fetch_movies self query w)) as [films|e] eqn:Hres.
  - destruct (fetch_movies_bound self query w films ltac:(lia) Hres)
      as [->|(provided & rest & r & Hne & _ & _ & ->)]; [discriminate|].
    destruct provided as [|film provided]; [contradiction|].
    destruct (Z.to_nat (MovieSearcher.movie_cap self)) eqn:Hk; [lia|discriminate].
  - revert Hres. run_fetch_movies.
    destruct (net w) as [|[e'|r] rest]; simpl; try (intros _; apply last_snoc).
    destruct (status r =? 429); simpl.
    + destruct rest as [|[e'|r2] rest]; simpl; try (intros _; apply last_snoc).
      destruct (json r2) as [[[[|film provided]|]|]|e']; simpl;
        try discriminate; intros _; apply last_snoc.
    + destruct ((status r =? 401) || (status r =? 403)); simpl; [discriminate|].
      destruct (negb (status r =? 200)); simpl; [discriminate|].
      destruct (json r) as [[[[|film provided]|]|]|e']; simpl;
        try discriminate; intros _; apply last_snoc.
Qed.

Lemma fetch_movies_returns_or_logs_witness :
  last (trace (snd (MovieSearcher.fetch_movies sample_searcher "Venom"
                      (fresh_world [Refused TimeoutError]))))
  = Some (Log "Error during movie info fetch.").
Proof.
  apply (fetch_movies_returns_or_logs sample_searcher "Venom"
           (fresh_world [Refused TimeoutError])).
  discriminate.
Defined.

Section Resolver.
Context {E : Extern}.

(** X13: the secondary source is asked exactly once.  A refused request,
    a status of 400 or more and an unreadable page are logged and leave
    the links as they were when the exception is one of [ClientError],
    [ValueError], [TypeError], [RuntimeError]; any other exception is
    raised to the caller.  A run that returns gives back the links it
    was given, with at most one link after them. *)
Theorem try_add_filmix_link_failures links movie_title movie_year w :
  let run := MovieSearcher._try_add_filmix_link links movie_title movie_year w in
  let asked :=
    Post MovieSearcher.FILMIX_SEARCH_URL
         (MovieSearcher.filmix_payload movie_title movie_year) in
  (exists logs, trace (snd run) = trace w ++ asked :: logs /\
                Forall (fun ev => is_log ev = true) logs /\
                net (snd run) = tail (net w)) /\
  match net w with
  | [] => fst run = Ok links
  | Refused e :: _ => fst run = if caught e then Ok links else Raise e
  | Answered r :: _ =>
      if 400 <=? status r then fst run = Ok links
      else
        match text r with
        | Raise e => fst run = if caught e then Ok links else Raise e
        | Ok html =>
            fst run = Ok (MovieSearcher._parse_filmix_response html links movie_title)
        end
  end /\
  (forall links', fst run = Ok links' ->
     links' = links \/ exists link, links' = links ++ [link]).
Proof.
  intros run asked. split; [|split].
  - subst run asked.
    cbv [MovieSearcher._try_add_filmix_link MovieSearcher.raise_for_status
         try_except bind request emit lift ret raise]; simpl.
    destruct (net w) as [|[e|r] rest]; simpl.
    + eexists. rewrite <- (assoc_L (++)). split; [reflexivity|].
      repeat split; repeat constructor.
    + destruct e; simpl; eexists; rewrite <- ?(assoc_L (++));
        (split; [reflexivity|]); repeat split; repeat constructor.
    + destruct (400 <=? status r); simpl.
      * eexists. rewrite <- (assoc_L (++)). split; [reflexivity|].
        repeat split; repeat constructor.
      * destruct (text r) as [html|e]; simpl; [|destruct e; simpl];
          eexists; rewrite <- ?(assoc_L (++));
          (split; [reflexivity|]); repeat split; repeat constructor.
  - subst run.
    cbv [MovieSearcher._try_add_filmix_link MovieSearcher.raise_for_status
         try_except bind request emit lift ret raise]; simpl.
    destruct (net w) as [|[e|r] rest]; simpl; [reflexivity|destruct e; reflexivity|].
    destruct (400 <=? status r); simpl; [reflexivity|].
    destruct (text r) as [html|e]; simpl; [reflexivity|destruct e; reflexivity].
  - intros links'. apply try_add_filmix_link_shape.
Qed.

(** X14: a film with a non-zero identifier, resolved under a cap of at
    most 1, gets exactly its synthesized primary link, and nothing is
    sent, logged or otherwise changed on the way. *)
Theorem fetch_movie_links_primary_only self film id w :
  MovieSearcher.links_cap self <= 1 ->
  filmId film = Some id ->
  id <> 0 ->
  MovieSearcher.fetch_movie_links self film w =
  (Ok [MovieSearcher.BASE_SSPOISK_URL
       +:+ (if default false (serial film) then "series" else "film")
       +:+ "/" +:+ Py.fmt_int id +:+ "/"],
   w).
Proof.
  intros Hcap Hfilm Hid. unfold MovieSearcher.fetch_movie_links.
  rewrite Hfilm. unfold Py.truthy_int. rewrite (proj2 (Z.eqb_neq id 0) Hid). simpl.
  destruct (Z.ltb_spec (Py.len [(MovieSearcher.BASE_SSPOISK_URL
       +:+ (if default false (serial film) then "series" else "film")
       +:+ "/" +:+ Py.fmt_int id +:+ "/")%string]) (MovieSearcher.links_cap self))
    as [Hlt|_]; [unfold Py.len in Hlt; simpl in Hlt; lia|reflexivity].
Qed.
End Resolver.

Lemma fetch_movie_links_primary_only_witness :
  MovieSearcher.fetch_movie_links (E := sample_extern) sample_searcher venom
    (fresh_world [Refused TimeoutError]) =
  (Ok ["https://sspoisk.ru/film/42/"], fresh_world [Refused TimeoutError]).
Proof.
  apply (fetch_movie_links_primary_only (E := sample_extern) sample_searcher venom 42).
  - discriminate.
  - reflexivity.
  - discriminate.
Defined.

Lemma fetch_movie_links_within_cap_witness :
  Py.len ["https://sspoisk.ru/series/7/"; "https://filmix.date/play/x1"] <= 2 /\
  head ["https://sspoisk.ru/series/7/"; "https://filmix.date/play/x1"]
    = Some "https://sspoisk.ru/series/7/".
Proof.
  destruct (fetch_movie_links_within_cap (E := sample_extern)
              (MovieSearcher.mk "key" 2 3)
              (mkMovie None (Some 7) (Some "45") None None None None None (Some true))
              (fresh_world
                 [Answered (mkResponse 200 (Raise ClientError)
                              (Ok [mkArticle (Some "x1") (Some "45")]))])
              ["https://sspoisk.ru/series/7/"; "https://filmix.date/play/x1"]
              ltac:(discriminate) eq_refl) as [Hlen Hhead].
  split; [exact Hlen|]. apply (Hhead 7 eq_refl). discriminate.
Defined.

(** ** History writes of the search page *)

Section SearchWrites.
Context {E : Extern} (searcher : MovieSearcher.t).

Lemma preserves_db_fetch_movie_links film :
  preserves db (MovieSearcher.fetch_movie_links searcher film).
Proof.
  unfold MovieSearcher.fetch_movie_links, MovieSearcher._try_add_filmix_link,
    MovieSearcher.raise_for_status.
  frame.
Qed.

Lemma preserves_db_get_film_caption film :
  preserves db (CinemaBot.get_film_caption searcher film).
Proof.
  unfold CinemaBot.get_film_caption.
  destruct (error film); [primitive|].
  apply preserves_bind; [apply preserves_db_fetch_movie_links|intros ?; primitive].
Qed.

Lemma preserves_db_fetch_movies query :
  preserves db (MovieSearcher.fetch_movies searcher query).
Proof. unfold MovieSearcher.fetch_movies, MovieSearcher.get_films. frame. Qed.

Lemma preserves_fsm_fetch_movies query :
  preserves fsm (MovieSearcher.fetch_movies searcher query).
Proof. unfold MovieSearcher.fetch_movies, MovieSearcher.get_films. frame. Qed.

Lemma get_film_caption_found film w value :
  fst (CinemaBot.get_film_caption searcher film w) = Ok value ->
  error film = None ->
  exists caption,
    value = CinemaBot.CaptionTuple caption
              (match nameRu film with Some name => Some name | None => nameEn film end)
              (year film).
Proof.
  unfold CinemaBot.get_film_caption. intros Hrun Herr. rewrite Herr in Hrun.
  unfold bind, ret in Hrun.
  destruct (MovieSearcher.fetch_movie_links searcher film w) as [[links|e] w'];
    simpl in Hrun; [|discriminate].
  injection Hrun as <-. eauto.
Qed.

(** What a rendering of the search page leaves in the database. *)
Lemma show_search_page_outcome is_callback user_id w :
  let run := CinemaBot.show_search_page searcher is_callback user_id w in
  let films := default [] (film_info (fsm w)) in
  match fst run with
  | Ok _ =>
      exists name yr,
        db (snd run) =
          Db.add_search (db w) user_id (default EmptyString (query (fsm w))) name yr /\
        match films with
        | [] => name = None /\ yr = None
        | _ :: _ =>
            exists film,
              Py.index films (clamp (stored_page w) (Py.len films)) = Some film /\
              (error film = None ->
               name = match nameRu film with Some n => Some n | None => nameEn film end /\
               yr = year film)
        end
  | Raise _ => db (snd run) = db w
  end.
Proof.
  unfold CinemaBot.show_search_page, stored_page, clamp.
  cbv [bind get_data update_data_page emit with_session ret raise].
  cbn [fsm db net trace fst snd].
  destruct (film_info (fsm w)) as [[|film0 films]|];
    cbn [default from_option id fst snd db fsm].
  1, 3: exists None, None; split; [reflexivity|split; reflexivity].
  set (p := Z.max 0 (Z.min (default 0 (page (fsm w))) (Py.len (film0 :: films) - 1))).
  destruct (Py.index (film0 :: films) p) as [film|] eqn:Hindex; cbn [fst snd db];
    [|reflexivity].
  match goal with
  | |- context [CinemaBot.get_film_caption searcher film ?w1] =>
      pose proof (preserves_db_get_film_caption film w1) as Hdb;
      pose proof (get_film_caption_found film w1) as Hfound;
      unfold after in Hdb;
      destruct (CinemaBot.get_film_caption searcher film w1) as [[value|e] w2]
  end; cbn [fst snd db] in *; [|exact Hdb].
  destruct value as [s|caption name yr]; cbn [CinemaBot.unpack3].
  - destruct (Py.chars s) as [|a [|b [|c [|d rest]]]]; cbn [fst snd db ret raise];
      try exact Hdb.
    exists (Some b), (Some c). rewrite Hdb. split; [reflexivity|].
    exists film. split; [reflexivity|]. intros Herr.
    destruct (Hfound _ eq_refl Herr) as [caption Hvalue]. discriminate Hvalue.
  - cbn [fst snd db ret]. exists name, yr. rewrite Hdb. split; [reflexivity|].
    exists film. split; [reflexivity|]. intros Herr.
    destruct (Hfound _ eq_refl Herr) as [caption' Hvalue].
    injection Hvalue as _ -> ->. split; reflexivity.
Qed.

(** X15: a rendering of the search page appends exactly one record when
    it returns, and none when it raises: the record carries the query
    kept in the FSM data and, for a film that is no error candidate, the
    name (Russian, else English) and the year of the film on the clamped
    page; with no films kept it carries neither. *)
Theorem show_search_page_records_once is_callback user_id w :
  let run := CinemaBot.show_search_page searcher is_callback user_id w in
  let films := default [] (film_info (fsm w)) in
  let q := default EmptyString (query (fsm w)) in
  (forall e, fst run = Raise e ->
     Db.search_history (db (snd run)) = Db.search_history (db w)) /\
  (fst run = Ok tt ->
   exists name yr,
     Db.search_history (db (snd run)) =
       Db.search_history (db w) ++ [Db.mkSearch user_id q name yr] /\
     match films with
     | [] => name = None /\ yr = None
     | _ :: _ =>
         exists film,
           Py.index films (clamp (stored_page w) (Py.len films)) = Some film /\
           (error film = None ->
            name = match nameRu film with Some n => Some n | None => nameEn film end /\
            yr = year film)
     end).
Proof.
  intros run films q. subst run films q.
  pose proof (show_search_page_outcome is_callback user_id w) as Hout.
  cbv zeta in Hout.
  destruct (fst (CinemaBot.show_search_page searcher is_callback user_id w)) as [[]|e'].
  - split; [discriminate|]. intros _.
    destruct Hout as (name & yr & Hdb & Hfilm). exists name, yr.
    rewrite Hdb. split; [reflexivity|exact Hfilm].
  - split; [|discriminate]. intros e _. rewrite Hout. reflexivity.
Qed.

(** The lookup step of the handler turns every exception into an error
    candidate. *)
Lemma lookup_step_returns query w :
  exists film_info w1,
    try_except (MovieSearcher.fetch_movies searcher query)
      (fun e =>
         match e with
         | ClientError | TimeoutError =>
             let* _ := emit (Log "API request error") in
             ret [error_movie "Не удалось обработать запрос"]
         | ValueError =>
             let* _ := emit (Log "Value error") in
             ret [error_movie "Некорректные данные запроса"]
         | _ =>
             let* _ := emit (Log "Unexpected error") in
             ret [error_movie "Произошла неизвестная ошибка"]
         end) w = (Ok film_info, w1) /\
    db w1 = db w /\
    (exists logs,
       trace w1 = trace (snd (MovieSearcher.fetch_movies searcher query w)) ++ logs /\
       Forall silent logs) /\
    match fst (MovieSearcher.fetch_movies searcher query w) with
    | Ok films => film_info = films
    | Raise ClientError | Raise TimeoutError =>
        film_info = [error_movie "Не удалось обработать запрос"]
    | Raise ValueError => film_info = [error_movie "Некорректные данные запроса"]
    | Raise _ => film_info = [error_movie "Произошла неизвестная ошибка"]
    end.
Proof.
  pose proof (preserves_db_fetch_movies query w) as Hdb. unfold after in Hdb.
  unfold try_except.
  destruct (MovieSearcher.fetch_movies searcher query w) as [[films|e] w1];
    cbn [fst snd] in *.
  - exists films, w1. split; [reflexivity|]. split; [exact Hdb|].
    split; [|reflexivity]. exists []. rewrite app_nil_r. split; [reflexivity|constructor].
  - destruct e; cbv [bind emit ret]; cbn [fst snd db trace];
      eexists; eexists; (split; [reflexivity|]); (split; [exact Hdb|]);
      (split; [|reflexivity]); eexists; (split; [reflexivity|]);
      repeat constructor.
Qed.

Lemma emits_silent_fetch_movies query :
  emits silent (MovieSearcher.fetch_movies searcher query).
Proof. unfold MovieSearcher.fetch_movies, MovieSearcher.get_films. emitting. Qed.

Lemma show_search_page_keeps_context is_callback user_id w :
  let w' := after (CinemaBot.show_search_page searcher is_callback user_id) w in
  state (fsm w') = state (fsm w) /\ query (fsm w') = query (fsm w).
Proof.
  destruct (Z.lt_ge_cases 0 (dataset_size search user_id w)) as [Hn|Hn].
  - cbv zeta.
    change (CinemaBot.show_search_page searcher is_callback user_id)
      with (CinemaBot.show_page searcher search is_callback user_id).
    rewrite (show_page_fsm searcher search is_callback user_id w Hn).
    split; reflexivity.
  - unfold dataset_size in Hn.
    unfold CinemaBot.show_search_page, after.
    cbv [bind get_data emit with_session]. cbn [fst snd fsm].
    destruct (film_info (fsm w)) as [[|film films]|]; cbn [default from_option id] in *;
      try (split; reflexivity).
    unfold Py.len in Hn. simpl in Hn. lia.
Qed.

(** X16: a search message appends either two records or none.  When the
    handler returns, the record of the rendering comes first and the
    record without name and year of the handler second, both with the
    stripped text as query; when it raises, the history is as it was.
    Either way the FSM is left in the search state with that query. *)
Theorem movie_search_handler_records_twice_or_not user_id message_text w :
  let run := CinemaBot.movie_search_handler searcher user_id message_text w in
  let q := str_strip message_text in
  (forall e, fst run = Raise e ->
     Db.search_history (db (snd run)) = Db.search_history (db w)) /\
  (fst run = Ok tt ->
   exists name yr,
     Db.search_history (db (snd run)) =
       Db.search_history (db w)
       ++ [Db.mkSearch user_id q name yr; Db.mkSearch user_id q None None]) /\
  state (fsm (snd run)) = Some search /\
  query (fsm (snd run)) = Some q.
Proof.
  intros run q.
  destruct (lookup_step_returns q w) as (film_info & w1 & Hlookup & Hdb1 & _ & _).
  set (w2 := mkWorld (mkFSM (Some search) (Some 0) (Some q) (Some film_info))
                     (db w1) (net w1) (trace w1)).
  assert (Hrun : run =
    match CinemaBot.show_search_page searcher false user_id w2 with
    | (Ok _, w3) =>
        (Ok tt, mkWorld (fsm w3) (Db.add_search (db w3) user_id q None None)
                        (net w3) (trace w3))
    | (Raise e, w3) => (Raise e, w3)
    end).
  { subst run. unfold CinemaBot.movie_search_handler. fold q.
    unfold bind at 1. rewrite Hlookup. reflexivity. }
  clearbody run. subst run.
  pose proof (show_search_page_outcome false user_id w2) as Hout.
  pose proof (show_search_page_keeps_context false user_id w2) as Hctx.
  unfold after in Hctx. cbv zeta in Hout, Hctx.
  destruct (CinemaBot.show_search_page searcher false user_id w2) as [[[]|e] w3];
    cbn [fst snd fsm db state query default from_option id w2] in *;
    destruct Hctx as [Hstate Hquery].
  - destruct Hout as (name & yr & Hdb3 & _).
    split; [discriminate|]. split; [|split; assumption].
    intros _. exists name, yr. rewrite Hdb3, Hdb1. unfold Db.add_search. simpl.
    rewrite <- (assoc_L (++)). reflexivity.
  - split; [|split; [discriminate|split; assumption]].
    intros _ _. rewrite Hout, Hdb1. reflexivity.
Qed.

(** X17: whenever the lookup raises, or returns the sentinel for no
    film, the search message ends in [ValueError] from the rendering of
    the error candidate: no record is written and nothing is sent to the
    user. *)
Theorem movie_search_handler_fails_on_error_candidate user_id message_text w :
  let lookup := MovieSearcher.fetch_movies searcher (str_strip message_text) w in
  let run := CinemaBot.movie_search_handler searcher user_id message_text w in
  (exists e, fst lookup = Raise e) \/ fst lookup = Ok [MovieSearcher.not_found] ->
  fst run = Raise ValueError /\
  db (snd run) = db w /\
  exists evs, trace (snd run) = trace w ++ evs /\ Forall silent evs.
Proof.
  intros lookup run Hfailed. subst lookup.
  set (q := str_strip message_text) in *.
  destruct (lookup_step_returns q w)
    as (film_info & w1 & Hlookup & Hdb1 & (logs & Htrace & Hlogs) & Hfilms).
  destruct (emits_silent_fetch_movies q w) as (evs & Hevs & Hsilent).
  unfold after in Hevs. rewrite Hevs in Htrace.
  assert (Herror : exists message,
            film_info = [error_movie message] /\ length (Py.chars message) <> 3%nat).
  { destruct Hfailed as [[e He]|Hnone]; [rewrite He in Hfilms|rewrite Hnone in Hfilms].
    - destruct e; eexists; (split; [exact Hfilms|]); vm_compute; discriminate.
    - eexists. split; [exact Hfilms|]. vm_compute. discriminate. }
  destruct Herror as (message & -> & Hchars).
  assert (Hrun : run =
    (Raise ValueError,
     mkWorld (mkFSM (Some search) (Some 0) (Some q) (Some [error_movie message]))
             (db w1) (net w1) (trace w1))).
  { subst run. unfold CinemaBot.movie_search_handler. fold q.
    unfold bind at 1. rewrite Hlookup.
    cbv [bind set_state update_data_search CinemaBot.show_search_page get_data
         update_data_page CinemaBot.get_film_caption CinemaBot.unpack3 ret raise].
    simpl.
    destruct (Py.chars message) as [|a [|b [|c [|d rest]]]]; try reflexivity.
    exfalso. apply Hchars. reflexivity. }
  clearbody run. subst run. cbn [fst snd db trace].
  split; [reflexivity|]. split; [exact Hdb1|].
  exists (evs ++ logs). rewrite Htrace, (assoc_L (++)). split; [reflexivity|].
  apply Forall_app. split; assumption.
Qed.
End SearchWrites.

Lemma movie_search_handler_fails_on_error_candidate_witness :
  fst (CinemaBot.movie_search_handler (E := sample_extern) sample_searcher 7 "Venom"
         (fresh_world [Refused TimeoutError])) = Raise ValueError.
Proof.
  apply (movie_search_handler_fails_on_error_candidate (E := sample_extern)
           sample_searcher 7 "Venom" (fresh_world [Refused TimeoutError])).
  left. exists TimeoutError. reflexivity.
Defined.

(** ** The caps read from the environment *)




